(** * Flightradar24 MCP server: the data-access layer

    A shallow embedding of [src/api-client.ts] (the class
    [Flightradar24ApiClient]) and of the tool entry points that guard it
    ([tools/flight-search.ts], [tools/airport-data.ts],
    [tools/zone-search.ts]), followed by the properties of the retry
    loop, of the envelope unwrapping and of the parameter mapping.  The
    second half adds the other tools, the resource handlers
    ([resources/*.ts]) and the client cache and resource routing of
    [index.ts], with the properties of their validation and addressing.

    Conventions.
    - A JavaScript number is an IEEE 754 binary64 value: Rocq's primitive
      [float].  The retry counter and the back-off delay only ever hold
      small non-negative integers and are kept in [nat] and [Z].
    - A JavaScript object used as a property bag is a [gmap string value].
    - A string is a [string]; one character stands for one UTF-16 code unit,
      so [String.length] is the [.length] of the source.
    - An [async] method is a function from the world before the call to
      its outcome (a value or a thrown exception) and the world after it.
      The world holds the client object and the log of what the client did
      to the outside: every GET it issued and every timer it waited on. *)

From Stdlib Require Import ZArith Lia.
From Stdlib Require Import Floats.PrimFloat Floats.FloatOps Floats.SpecFloat.
From stdpp Require Import base strings gmap list pretty.
From Equations Require Import Equations.

Set Warnings "-register-all".

(** ** JavaScript values *)

Inductive value : Type :=
| JUndefined
| JNull
| JBool (b : bool)
| JNum (x : float)
| JStr (s : string)
| JArr (l : list value)
| JObj (m : gmap string value).

(** [!x] is [negb (truthy x)]: the falsy values are [undefined], [null],
    [false], [0], [-0], [NaN] and the empty string. *)
Definition truthy_number (x : float) : bool :=
  negb (PrimFloat.eqb x 0%float || PrimFloat.is_nan x).

Definition truthy_string (s : string) : bool :=
  negb (String.eqb s "").

Definition truthy (v : value) : bool :=
  match v with
  | JUndefined | JNull => false
  | JBool b => b
  | JNum x => truthy_number x
  | JStr s => truthy_string s
  | JArr _ | JObj _ => true
  end.

(** [v.k] for a key that no prototype defines: the own property of an
    object, [undefined] on any other truthy value.  The source reads a
    property only behind a truthiness test of the receiver, so the
    [TypeError] of JavaScript on [null] and [undefined] is never reached;
    the model returns [undefined] there. *)
Definition prop (v : value) (k : string) : value :=
  match v with
  | JObj m => default JUndefined (m !! k)
  | _ => JUndefined
  end.

Notation "v .[ k ]" := (prop v k) (at level 1, left associativity, format "v .[ k ]").

(** An optional field of a typed argument record, seen as a value. *)
Definition of_opt {A} (inj : A -> value) (o : option A) : value :=
  match o with Some a => inj a | None => JUndefined end.

(** ** Errors *)

Inductive ErrorCode : Type :=
| InvalidRequest
| InvalidParams
| InternalError.

(** What a [throw] carries: an [McpError] or any other exception. *)
Inductive exn : Type :=
| McpError (code : ErrorCode) (message : string)
| OtherError (message : string).

Inductive Result (A : Type) : Type :=
| Return (a : A)
| Throw (e : exn).
Arguments Return {A} a.
Arguments Throw {A} e.

Module ENDPOINTS.
Definition FLIGHT_DATA : string := "/flights".
Definition FLIGHT_INFO : string := "/flight/info".
Definition AIRPORT_DATA : string := "/airports".
Definition AIRLINE_DATA : string := "/airlines".
Definition AIRCRAFT_DATA : string := "/aircraft".
Definition ZONES : string := "/zones".
End ENDPOINTS.

Module ERROR_MESSAGES.
Definition MISSING_API_KEY : string := "Flightradar24 API key is required".
Definition RATE_LIMIT_EXCEEDED : string := "Rate limit exceeded for Flightradar24 API".
Definition INVALID_API_KEY : string := "Invalid Flightradar24 API key".
Definition API_ERROR : string := "Flightradar24 API error".
Definition NETWORK_ERROR : string := "Network error while connecting to Flightradar24 API".
End ERROR_MESSAGES.

(** ** The client object and the world *)

Record AxiosInstance : Type := {
  baseURL : string;
  timeout : Z;
  headers : list (string * string)
}.

Record Flightradar24ApiClient : Type := {
  axiosInstance : AxiosInstance;
  apiKey : string;
  baseUrl : string;
  retryDelay : Z;
  maxRetries : nat
}.

(** [new Flightradar24ApiClient(apiKey)]; [None] is a missing argument. *)
Definition new_Flightradar24ApiClient (apiKey : option string)
  : Result Flightradar24ApiClient :=
  if negb (truthy (of_opt JStr apiKey)) then
    Throw (McpError InvalidParams ERROR_MESSAGES.MISSING_API_KEY)
  else
    let key := default "" apiKey in
    let baseUrl := "https://api.flightradar24.com/v1" in
    Return {|
      axiosInstance := {|
        baseURL := baseUrl;
        timeout := 10000;
        headers := [("Authorization", "Bearer " +:+ key);
                    ("Content-Type", "application/json")]
      |};
      apiKey := key;
      baseUrl := baseUrl;
      retryDelay := 1000;
      maxRetries := 3
    |}.

(** One GET as the client hands it to axios. *)
Record Request : Type := {
  req_endpoint : string;
  req_params : gmap string value
}.

(** How [axiosInstance.get] settles: it resolves with the parsed body,
    rejects with an [AxiosError] that carries the response (status and
    body) or carries none, or rejects with something that is no
    [AxiosError]. *)
Inductive AxiosOutcome : Type :=
| Resolved (data : value)
| AxiosErrorResponse (status : float) (data : value)
| AxiosErrorNoResponse
| NonAxiosError (message : string).

Inductive Event : Type :=
| Get (r : Request)
| Sleep (ms : Z).

Record World : Type := {
  apiClient : Flightradar24ApiClient;
  trace : list Event
}.

Definition log (e : Event) (w : World) : World :=
  {| apiClient := apiClient w; trace := trace w ++ [e] |}.

(** The GETs of a trace, oldest first. *)
Fixpoint requests (t : list Event) : list Request :=
  match t with
  | [] => []
  | Get r :: t => r :: requests t
  | Sleep _ :: t => requests t
  end.

(** The sleeps of a trace, oldest first. *)
Fixpoint sleeps (t : list Event) : list Z :=
  match t with
  | [] => []
  | Get _ :: t => sleeps t
  | Sleep ms :: t => ms :: sleeps t
  end.

(** ** Typed arguments of the operations *)

Record Bounds : Type := {
  north : float;
  south : float;
  west : float;
  east : float
}.

Definition Bounds_object (b : Bounds) : value :=
  JObj (<["north" := JNum (north b)]> (<["south" := JNum (south b)]>
       (<["west" := JNum (west b)]> (<["east" := JNum (east b)]> ∅)))).

(** A property that is written only when the optional field is there. *)
Definition set_opt {A} (k : string) (inj : A -> value) (o : option A)
    (m : gmap string value) : gmap string value :=
  match o with Some a => <[k := inj a]> m | None => m end.

Module FlightSearchParams.
Record t : Type := {
  airline_iata : option string;
  airline_icao : option string;
  flight_number : option string;
  flight_iata : option string;
  flight_icao : option string;
  registration : option string;
  bounds : option Bounds;
  limit : option float
}.

(** The record as the property bag that axios receives. *)
Definition object (p : t) : gmap string value :=
  set_opt "airline_iata" JStr (airline_iata p)
    (set_opt "airline_icao" JStr (airline_icao p)
    (set_opt "flight_number" JStr (flight_number p)
    (set_opt "flight_iata" JStr (flight_iata p)
    (set_opt "flight_icao" JStr (flight_icao p)
    (set_opt "registration" JStr (registration p)
    (set_opt "bounds" Bounds_object (bounds p)
    (set_opt "limit" JNum (limit p) ∅))))))).

(** [{ ...args, limit }] *)
Definition with_limit (args : t) (l : float) : t :=
  {| airline_iata := airline_iata args;
     airline_icao := airline_icao args;
     flight_number := flight_number args;
     flight_iata := flight_iata args;
     flight_icao := flight_icao args;
     registration := registration args;
     bounds := bounds args;
     limit := Some l |}.
End FlightSearchParams.

Module AirportSearchParams.
Record t : Type := {
  iata : option string;
  icao : option string;
  name : option string;
  country : option string;
  limit : option float
}.

Definition object (p : t) : gmap string value :=
  set_opt "iata" JStr (iata p)
    (set_opt "icao" JStr (icao p)
    (set_opt "name" JStr (name p)
    (set_opt "country" JStr (country p)
    (set_opt "limit" JNum (limit p) ∅)))).

(** [{ ...args, limit }] *)
Definition with_limit (args : t) (l : float) : t :=
  {| iata := iata args;
     icao := icao args;
     name := name args;
     country := country args;
     limit := Some l |}.
End AirportSearchParams.

(** [args.limit || 10] *)
Definition limit_or (l : option float) (default : float) : float :=
  match l with
  | Some x => if truthy_number x then x else default
  | None => default
  end.

(** ** Asynchronous computations *)

Definition M (A : Type) : Type := World -> Result A * World.

Definition ret {A} (a : A) : M A := fun w => (Return a, w).

Definition throw {A} (e : exn) : M A := fun w => (Throw e, w).

Definition bind {A B} (m : M A) (k : A -> M B) : M B :=
  fun w =>
    match m w with
    | (Return a, w') => k a w'
    | (Throw e, w') => (Throw e, w')
    end.

Definition try_catch {A} (m : M A) (handler : exn -> M A) : M A :=
  fun w =>
    match m w with
    | (Return a, w') => (Return a, w')
    | (Throw e, w') => handler e w'
    end.

Definition lift {A} (r : Result A) : M A := fun w => (r, w).

(** Matching on a computed value while keeping the equation that says
    where it came from. *)
Definition inspect {A : Type} (a : A) : {b : A | a = b} := exist _ a eq_refl.

Declare Scope async_scope.
Delimit Scope async_scope with async.
Notation "x <- m ;; k" := (bind m (fun x => k))
  (at level 100, m at next level, right associativity) : async_scope.
Local Open Scope async_scope.

(** ** An environment to run the examples in

    The properties below hold for every upstream and every runtime; the
    examples need one of each.  [sample_Number_toString] is
    [Number::toString] on the integral values below 10^21, which is all the
    examples print.  [sample_JSON_stringify] writes the members of an
    object in the order of the map and escapes nothing. *)

Definition integral (x : float) : option Z :=
  match Prim2SF x with
  | S754_zero _ => Some 0%Z
  | S754_finite s m e =>
      let magnitude :=
        if (0 <=? e)%Z then Some (Z.pos m * 2 ^ e)%Z
        else if (Z.pos m mod 2 ^ (- e) =? 0)%Z then Some (Z.pos m / 2 ^ (- e))%Z
        else None in
      (if s then Z.opp else id) <$> magnitude
  | _ => None
  end.

Definition sample_Number_toString (x : float) : string :=
  match integral x with Some z => pretty z | None => "NaN" end.

Definition quote : string := String (Ascii.ascii_of_nat 34) EmptyString.

Fixpoint sample_JSON_stringify (v : value) : string :=
  match v with
  | JUndefined => "undefined"
  | JNull => "null"
  | JBool b => if b then "true" else "false"
  | JNum x => sample_Number_toString x
  | JStr s => quote +:+ s +:+ quote
  | JArr l => "[" +:+ String.concat "," (map sample_JSON_stringify l) +:+ "]"
  | JObj m =>
      "{" +:+ String.concat ","
                (map_fold (fun k v acc =>
                             (quote +:+ k +:+ quote +:+ ":" +:+ sample_JSON_stringify v)
                               :: acc) [] m)
          +:+ "}"
  end.

(** A rendering that hands the records back as they are. *)
Definition sample_render {A} (_ : A) (records : value) : Result value :=
  Return records.

(** An upstream that answers the GETs in turn from a script, whatever
    the request, and drops the connection once the script is over. *)
Definition scripted (answers : list AxiosOutcome) : nat -> Request -> AxiosOutcome :=
  fun n _ => default AxiosErrorNoResponse (answers !! n).

Definition too_many_requests : AxiosOutcome := AxiosErrorResponse 429 JNull.

Definition always_429 : nat -> Request -> AxiosOutcome :=
  fun _ _ => too_many_requests.

(** The client that [new Flightradar24ApiClient("secret")] returns, in a
    world where nothing has happened yet. *)
Definition sample_client : Flightradar24ApiClient :=
  {| axiosInstance := {|
       baseURL := "https://api.flightradar24.com/v1";
       timeout := 10000;
       headers := [("Authorization", "Bearer secret");
                   ("Content-Type", "application/json")]
     |};
     apiKey := "secret";
     baseUrl := "https://api.flightradar24.com/v1";
     retryDelay := 1000;
     maxRetries := 3 |}.

Definition sample_world : World := {| apiClient := sample_client; trace := [] |}.

Definition inverted_bounds : Bounds :=
  {| north := 10; south := 20; west := 0; east := 0 |}.

(** A body whose envelope stops one step short of the terminal value. *)
Definition no_terminal : value :=
  JObj {[ "result" := JObj {[ "response" := JObj ∅ ]} ]}.

(** A body with an airport in it. *)
Definition heathrow_body : value :=
  JObj {[ "result" :=
            JObj {[ "response" :=
                      JObj {[ "airport" :=
                                JObj {[ "name" := JStr "London Heathrow";
                                        "iata" := JStr "LHR" ]} ]} ]} ]}.

(** A body with one flight in it. *)
Definition delayed_payload : value :=
  JObj {[ "result" := JObj {[ "response" := JObj {[ "flights" := JArr [JStr "BA123"] ]} ]} ]}.

(** Arguments of the search tools. *)
Definition ba123 : FlightSearchParams.t :=
  {| FlightSearchParams.airline_iata := None;
     FlightSearchParams.airline_icao := None;
     FlightSearchParams.flight_number := None;
     FlightSearchParams.flight_iata := Some "BA123";
     FlightSearchParams.flight_icao := None;
     FlightSearchParams.registration := None;
     FlightSearchParams.bounds := None;
     FlightSearchParams.limit := Some 10%float |}.

Definition airports_named (name : string) (limit : option float)
  : AirportSearchParams.t :=
  {| AirportSearchParams.iata := None;
     AirportSearchParams.icao := None;
     AirportSearchParams.name := Some name;
     AirportSearchParams.country := None;
     AirportSearchParams.limit := limit |}.

(** ** Callers: arguments and resource addresses *)

Module FlightDataArgs.
Record t : Type := {
  flight_iata : option string;
  flight_icao : option string
}.
End FlightDataArgs.

(** [a || b] on optional strings. *)
Definition string_or (a b : option string) : option string :=
  if truthy (of_opt JStr a) then a else b.

(** [s] without the prefix [p], when it starts with it. *)
Fixpoint strip_prefix (p s : string) : option string :=
  match p, s with
  | EmptyString, _ => Some s
  | String a p', String b s' => if Ascii.eqb a b then strip_prefix p' s' else None
  | String _ _, EmptyString => None
  end.

(** [s.startsWith(p)] *)
Definition startsWith (s p : string) : bool :=
  match strip_prefix p s with Some _ => true | None => false end.

Fixpoint all_chars (ok : Ascii.ascii -> bool) (s : string) : bool :=
  match s with
  | EmptyString => true
  | String c s' => ok c && all_chars ok s'
  end.

(** The character class [[A-Za-z0-9]]. *)
Definition is_alnum (c : Ascii.ascii) : bool :=
  let n := Ascii.nat_of_ascii c in
  (48 <=? n) && (n <=? 57) || (65 <=? n) && (n <=? 90) || (97 <=? n) && (n <=? 122).

(** The character class [[A-Za-z0-9-]]. *)
Definition is_alnum_or_dash (c : Ascii.ascii) : bool :=
  is_alnum c || (Ascii.nat_of_ascii c =? 45).

(** The character [/]. *)
Definition slash : Ascii.ascii := Ascii.ascii_of_nat 47.

(** The character class [[^/]]. *)
Definition not_slash (c : Ascii.ascii) : bool := negb (Ascii.eqb c slash).

(** [uri.match(/^scheme:\/\/(class+)$/)]: the captured group, when the
    address is the scheme, [://] and one or more characters of the class. *)
Definition match_scheme (scheme : string) (class : Ascii.ascii -> bool) (uri : string)
  : option string :=
  match strip_prefix (scheme +:+ "://") uri with
  | Some rest =>
      if negb (String.eqb rest "") && all_chars class rest then Some rest else None
  | None => None
  end.

(** The pieces of [s] between its slashes: [s.split("/")]. *)
Fixpoint segments (s : string) : list string :=
  match s with
  | EmptyString => [EmptyString]
  | String c s' =>
      if Ascii.eqb c slash then EmptyString :: segments s'
      else match segments s' with
           | seg :: rest => String c seg :: rest
           | [] => [String c EmptyString]
           end
  end.

(** [uri.match(/^zone:\/\/([^/]+)\/([^/]+)\/([^/]+)\/([^/]+)$/)]: the four
    captured groups.  A group holds no slash, so the address matches
    exactly when what follows [zone://] is four non-empty pieces between
    three slashes. *)
Definition match_zone (uri : string) : option (string * string * string * string) :=
  match strip_prefix "zone://" uri with
  | Some rest =>
      match segments rest with
      | [m1; m2; m3; m4] =>
          if negb (String.eqb m1 "") && negb (String.eqb m2 "")
             && negb (String.eqb m3 "") && negb (String.eqb m4 "")
          then Some (m1, m2, m3, m4) else None
      | _ => None
      end
  | None => None
  end.

(** The server object of [index.ts]: the client it has built so far, if
    any, beside the log of the world. *)
Record ServerState : Type := {
  server_apiClient : option Flightradar24ApiClient;
  server_trace : list Event
}.

(** [getApiClient()]: the client is built from the environment variable on
    first use and kept. *)
Definition getApiClient (FLIGHTRADAR24_API_KEY : option string)
    (s : ServerState) : Result Flightradar24ApiClient * ServerState :=
  match server_apiClient s with
  | Some client => (Return client, s)
  | None =>
      if negb (truthy (of_opt JStr FLIGHTRADAR24_API_KEY)) then
        (Throw (McpError InvalidRequest
                  "FLIGHTRADAR24_API_KEY environment variable is required"), s)
      else
        match new_Flightradar24ApiClient FLIGHTRADAR24_API_KEY with
        | Return client =>
            (Return client,
             {| server_apiClient := Some client; server_trace := server_trace s |})
        | Throw e => (Throw e, s)
        end
  end.

Section Client.

(** The environment of the program: what the upstream answers to the
    [n]-th GET issued (counting from 0), and two functions of the
    JavaScript runtime, [Number::toString] behind a template literal
    and [JSON.stringify]. *)
Variable upstream : nat -> Request -> AxiosOutcome.
Variable Number_toString : float -> string.
Variable JSON_stringify : value -> string.

Definition axiosInstance_get (endpoint : string) (params : gmap string value)
  : World -> AxiosOutcome * World :=
  fun w =>
    let r := {| req_endpoint := endpoint; req_params := params |} in
    (upstream (length (requests (trace w))) r, log (Get r) w).

(** [await new Promise(resolve => setTimeout(resolve, delay))] *)
Definition setTimeout (delay : Z) (w : World) : World := log (Sleep delay) w.

(** The [catch] branch of [makeRequest] once no retry is due. *)
Definition classify (status : float) (data : value) : exn :=
  if PrimFloat.eqb status 401 then
    McpError InvalidRequest ERROR_MESSAGES.INVALID_API_KEY
  else
    McpError InternalError
      (ERROR_MESSAGES.API_ERROR +:+ ": " +:+ Number_toString status
         +:+ " - " +:+ JSON_stringify data).

Equations? makeRequest (endpoint : string) (params : gmap string value)
    (retryCount : nat) (w : World) : Result value * World
    by wf (maxRetries (apiClient w) - retryCount) lt :=
  makeRequest endpoint params retryCount w
    with inspect (axiosInstance_get endpoint params w) => {
    | exist _ (Resolved data, w1) _ := (Return data, w1);
    | exist _ (AxiosErrorResponse status data, w1) Hget
        with PrimFloat.eqb status 429,
             decide (retryCount < maxRetries (apiClient w1)) => {
        | true, left _ :=
            let delay := (retryDelay (apiClient w1) * 2 ^ Z.of_nat retryCount)%Z in
            makeRequest endpoint params (retryCount + 1) (setTimeout delay w1);
        | _, _ := (Throw (classify status data), w1) };
    | exist _ (AxiosErrorNoResponse, w1) _ :=
        (Throw (McpError InternalError ERROR_MESSAGES.NETWORK_ERROR), w1);
    | exist _ (NonAxiosError e, w1) _ := (Throw (OtherError e), w1) }.
Proof.
  lia.
Qed.

(** *** The public methods of the client *)

Definition getFlightData (flightId : string) : M value :=
  let endpoint := ENDPOINTS.FLIGHT_INFO +:+ "/" +:+ flightId in
  response <- makeRequest endpoint ∅ 0 ;;
  if negb (truthy response) || negb (truthy response.["result"]) then
    throw (McpError InvalidRequest
             ("No flight data found for flight ID: " +:+ flightId))
  else ret response.["result"].

Definition searchFlights (params : FlightSearchParams.t) : M value :=
  let endpoint := ENDPOINTS.FLIGHT_DATA in
  response <- makeRequest endpoint (FlightSearchParams.object params) 0 ;;
  if negb (truthy response) || negb (truthy response.["result"])
     || negb (truthy response.["result"].["response"])
     || negb (truthy response.["result"].["response"].["flights"])
  then ret (JArr [])
  else ret response.["result"].["response"].["flights"].

Definition getAirportData (airportCode : string) : M value :=
  let isIATA := String.length airportCode =? 3 in
  let params : gmap string value :=
    if isIATA then {[ "iata" := JStr airportCode ]}
    else {[ "icao" := JStr airportCode ]} in
  let endpoint := ENDPOINTS.AIRPORT_DATA in
  response <- makeRequest endpoint params 0 ;;
  if negb (truthy response) || negb (truthy response.["result"])
     || negb (truthy response.["result"].["response"])
     || negb (truthy response.["result"].["response"].["airport"])
  then
    throw (McpError InvalidRequest
             ("No airport data found for airport code: " +:+ airportCode))
  else ret response.["result"].["response"].["airport"].

Definition searchAirports (params : AirportSearchParams.t) : M value :=
  let endpoint := ENDPOINTS.AIRPORT_DATA in
  response <- makeRequest endpoint (AirportSearchParams.object params) 0 ;;
  if negb (truthy response) || negb (truthy response.["result"])
     || negb (truthy response.["result"].["response"])
     || negb (truthy response.["result"].["response"].["airports"])
  then ret (JArr [])
  else ret response.["result"].["response"].["airports"].

Definition getAirlineData (airlineCode : string) : M value :=
  let isIATA := String.length airlineCode =? 2 in
  let params : gmap string value :=
    if isIATA then {[ "iata" := JStr airlineCode ]}
    else {[ "icao" := JStr airlineCode ]} in
  let endpoint := ENDPOINTS.AIRLINE_DATA in
  response <- makeRequest endpoint params 0 ;;
  if negb (truthy response) || negb (truthy response.["result"])
     || negb (truthy response.["result"].["response"])
     || negb (truthy response.["result"].["response"].["airline"])
  then
    throw (McpError InvalidRequest
             ("No airline data found for airline code: " +:+ airlineCode))
  else ret response.["result"].["response"].["airline"].

Definition getAircraftData (registration : string) : M value :=
  let endpoint := ENDPOINTS.AIRCRAFT_DATA +:+ "/" +:+ registration in
  response <- makeRequest endpoint ∅ 0 ;;
  if negb (truthy response) || negb (truthy response.["result"])
     || negb (truthy response.["result"].["response"])
     || negb (truthy response.["result"].["response"].["aircraft"])
  then
    throw (McpError InvalidRequest
             ("No aircraft data found for registration: " +:+ registration))
  else ret response.["result"].["response"].["aircraft"].

Definition getFlightsInZone (bounds : Bounds) : M value :=
  let endpoint := ENDPOINTS.ZONES in
  let params : gmap string value :=
    {[ "bounds" := JStr (Number_toString (north bounds) +:+ ","
                         +:+ Number_toString (south bounds) +:+ ","
                         +:+ Number_toString (west bounds) +:+ ","
                         +:+ Number_toString (east bounds)) ]} in
  response <- makeRequest endpoint params 0 ;;
  if negb (truthy response) || negb (truthy response.["result"])
     || negb (truthy response.["result"].["response"])
     || negb (truthy response.["result"].["response"].["flights"])
  then ret (JArr [])
  else ret response.["result"].["response"].["flights"].

(** *** The tool entry points

    Each tool validates its arguments, calls the client, and renders the
    records it got into the text it returns.  The rendering (field
    renaming, ISO timestamps, the clock) is a parameter: it runs after
    the client has returned and may itself throw. *)
Variable render_search_flights : FlightSearchParams.t -> value -> Result value.
Variable render_search_airports : AirportSearchParams.t -> value -> Result value.
Variable render_zone : Bounds -> value -> Result value.

(** [catch (error) { if (error instanceof McpError) throw error;
    throw new McpError(InternalError, prefix + error.message) }] *)
Definition rethrow (prefix : string) (e : exn) : M value :=
  match e with
  | McpError _ _ => throw e
  | OtherError message => throw (McpError InternalError (prefix +:+ message))
  end.

Definition searchFlightsTool (args : FlightSearchParams.t) : M value :=
  try_catch
    (if negb (truthy (of_opt JStr (FlightSearchParams.airline_iata args)))
        && negb (truthy (of_opt JStr (FlightSearchParams.airline_icao args)))
        && negb (truthy (of_opt JStr (FlightSearchParams.flight_number args)))
        && negb (truthy (of_opt JStr (FlightSearchParams.flight_iata args)))
        && negb (truthy (of_opt JStr (FlightSearchParams.flight_icao args)))
        && negb (truthy (of_opt JStr (FlightSearchParams.registration args)))
        && negb (truthy (of_opt Bounds_object (FlightSearchParams.bounds args)))
     then
       throw (McpError InvalidParams
                "At least one search parameter must be provided.")
     else
       _ <- match FlightSearchParams.bounds args with
            | Some b =>
                if PrimFloat.ltb (north b) (south b) then
                  throw (McpError InvalidParams
                    "Northern latitude must be greater than or equal to southern latitude.")
                else if PrimFloat.ltb (east b) (west b) then
                  throw (McpError InvalidParams
                    "Eastern longitude must be greater than or equal to western longitude.")
                else ret tt
            | None => ret tt
            end ;;
       let limit := limit_or (FlightSearchParams.limit args) 10 in
       let searchParams := FlightSearchParams.with_limit args limit in
       flights <- searchFlights searchParams ;;
       lift (render_search_flights searchParams flights))
    (rethrow "Error searching for flights: ").

Definition searchAirportsTool (args : AirportSearchParams.t) : M value :=
  try_catch
    (if negb (truthy (of_opt JStr (AirportSearchParams.name args)))
        && negb (truthy (of_opt JStr (AirportSearchParams.country args)))
        && negb (truthy (of_opt JStr (AirportSearchParams.iata args)))
        && negb (truthy (of_opt JStr (AirportSearchParams.icao args)))
     then
       throw (McpError InvalidParams
                "At least one search parameter must be provided.")
     else
       let limit := limit_or (AirportSearchParams.limit args) 10 in
       let searchParams := AirportSearchParams.with_limit args limit in
       airports <- searchAirports searchParams ;;
       lift (render_search_airports searchParams airports))
    (rethrow "Error searching for airports: ").

Definition getFlightsInZoneTool (args : Bounds) : M value :=
  try_catch
    (let north := north args in
     let south := south args in
     let west := west args in
     let east := east args in
     if PrimFloat.ltb north south then
       throw (McpError InvalidParams
         "Northern latitude must be greater than or equal to southern latitude.")
     else if PrimFloat.ltb east west then
       throw (McpError InvalidParams
         "Eastern longitude must be greater than or equal to western longitude.")
     else if PrimFloat.ltb 90 north || PrimFloat.ltb south (-90) then
       throw (McpError InvalidParams
         "Latitude must be between -90 and 90 degrees.")
     else if PrimFloat.ltb 180 east || PrimFloat.ltb west (-180) then
       throw (McpError InvalidParams
         "Longitude must be between -180 and 180 degrees.")
     else
       flights <- getFlightsInZone
                    {| north := north; south := south; west := west; east := east |} ;;
       lift (render_zone args flights))
    (rethrow "Error retrieving flights in zone: ").

(** What [makeRequest] does once the GET has settled. *)
Definition settle (endpoint : string) (params : gmap string value)
    (retryCount : nat) (settled : AxiosOutcome * World) : Result value * World :=
  let '(outcome, w1) := settled in
  match outcome with
  | Resolved data => (Return data, w1)
  | AxiosErrorResponse status data =>
      if PrimFloat.eqb status 429
         && bool_decide (retryCount < maxRetries (apiClient w1))
      then
        makeRequest endpoint params (retryCount + 1)
          (setTimeout (retryDelay (apiClient w1) * 2 ^ Z.of_nat retryCount) w1)
      else (Throw (classify status data), w1)
  | AxiosErrorNoResponse =>
      (Throw (McpError InternalError ERROR_MESSAGES.NETWORK_ERROR), w1)
  | NonAxiosError e => (Throw (OtherError e), w1)
  end.

(** *** Vocabulary of the specification *)

(** The GETs issued between two worlds. *)
Definition issued (w w' : World) : list Request :=
  drop (length (requests (trace w))) (requests (trace w')).

(** The timers waited on between two worlds. *)
Definition slept (w w' : World) : list Z :=
  drop (length (sleeps (trace w))) (sleeps (trace w')).

Definition is_429 (o : AxiosOutcome) : bool :=
  match o with
  | AxiosErrorResponse status _ => PrimFloat.eqb status 429
  | _ => false
  end.

(** How many times a request is re-issued: the length of the run of 429
    answers that starts at GET number [n], cut at [budget] retries. *)
Fixpoint retries (r : Request) (n budget : nat) : nat :=
  match budget with
  | 0 => 0
  | S budget' =>
      if is_429 (upstream n r) then S (retries r (S n) budget') else 0
  end.

(** The events of [k] rate-limited attempts, the first of them made with
    attempt count [retryCount]. *)
Fixpoint backoff (r : Request) (delay : Z) (retryCount k : nat) : list Event :=
  match k with
  | 0 => []
  | S k' =>
      Get r :: Sleep (delay * 2 ^ Z.of_nat retryCount)
        :: backoff r delay (S retryCount) k'
  end.

(** What the caller gets from the answer that ends the loop. *)
Definition final (o : AxiosOutcome) : Result value :=
  match o with
  | Resolved data => Return data
  | AxiosErrorResponse status data => Throw (classify status data)
  | AxiosErrorNoResponse =>
      Throw (McpError InternalError ERROR_MESSAGES.NETWORK_ERROR)
  | NonAxiosError e => Throw (OtherError e)
  end.

(** The value found at the end of an envelope path, [undefined] as soon
    as a step is missing. *)
Definition terminal (path : list string) (response : value) : value :=
  fold_left prop path response.

(** The envelope lacks its terminal value: a step of the path is absent,
    or what is there is [null] or another falsy value. *)
Definition envelope_missing (path : list string) (response : value) : Prop :=
  truthy (terminal path response) = false.

(** The GET of a zone query: the four numbers as written by the template
    literal, joined by commas in the order north, south, west, east. *)
Definition zone_request (b : Bounds) : Request :=
  {| req_endpoint := "/zones";
     req_params :=
       {[ "bounds" := JStr (Number_toString (north b) +:+ ","
                            +:+ Number_toString (south b) +:+ ","
                            +:+ Number_toString (west b) +:+ ","
                            +:+ Number_toString (east b)) ]} |}.

(** The bounds that [getFlightsInZoneTool] turns down. *)
Definition rejected_by_tool (b : Bounds) : bool :=
  PrimFloat.ltb (north b) (south b)
  || PrimFloat.ltb (east b) (west b)
  || (PrimFloat.ltb 90 (north b) || PrimFloat.ltb (south b) (-90))
  || (PrimFloat.ltb 180 (east b) || PrimFloat.ltb (west b) (-180)).

(** The arguments that [searchFlightsTool] lets through to the client: a
    criterion is given (bounds count as one) and the bounds, when given,
    are the right way round. *)
Definition flight_search_accepted (args : FlightSearchParams.t) : bool :=
  (truthy (of_opt JStr (FlightSearchParams.airline_iata args))
   || truthy (of_opt JStr (FlightSearchParams.airline_icao args))
   || truthy (of_opt JStr (FlightSearchParams.flight_number args))
   || truthy (of_opt JStr (FlightSearchParams.flight_iata args))
   || truthy (of_opt JStr (FlightSearchParams.flight_icao args))
   || truthy (of_opt JStr (FlightSearchParams.registration args))
   || truthy (of_opt Bounds_object (FlightSearchParams.bounds args)))
  && match FlightSearchParams.bounds args with
     | Some b =>
         negb (PrimFloat.ltb (north b) (south b))
         && negb (PrimFloat.ltb (east b) (west b))
     | None => true
     end.

(** The arguments that [searchAirportsTool] lets through: a criterion is
    given. *)
Definition airport_search_accepted (args : AirportSearchParams.t) : bool :=
  truthy (of_opt JStr (AirportSearchParams.name args))
  || truthy (of_opt JStr (AirportSearchParams.country args))
  || truthy (of_opt JStr (AirportSearchParams.iata args))
  || truthy (of_opt JStr (AirportSearchParams.icao args)).

(** The zone query read as issuing one GET, no more and no fewer. *)
Definition exactly_one_zone_request (b : Bounds) (w : World) : Prop :=
  issued w (getFlightsInZone b w).2 = [zone_request b].

(** The public methods, as one type. *)
Inductive Operation : Type :=
| GetFlightData (flightId : string)
| SearchFlights (params : FlightSearchParams.t)
| GetAirportData (airportCode : string)
| SearchAirports (params : AirportSearchParams.t)
| GetAirlineData (airlineCode : string)
| GetAircraftData (registration : string)
| GetFlightsInZone (bounds : Bounds).

Definition run (op : Operation) : M value :=
  match op with
  | GetFlightData flightId => getFlightData flightId
  | SearchFlights params => searchFlights params
  | GetAirportData airportCode => getAirportData airportCode
  | SearchAirports params => searchAirports params
  | GetAirlineData airlineCode => getAirlineData airlineCode
  | GetAircraftData registration => getAircraftData registration
  | GetFlightsInZone bounds => getFlightsInZone bounds
  end.

(** ** Properties *)

(** *** Traces *)

Lemma requests_app t1 t2 : requests (t1 ++ t2) = requests t1 ++ requests t2.
Proof.
  induction t1 as [|[r|ms] t1 IH]; simpl; [reflexivity| |assumption].
  now rewrite IH.
Qed.

Lemma sleeps_app t1 t2 : sleeps (t1 ++ t2) = sleeps t1 ++ sleeps t2.
Proof.
  induction t1 as [|[r|ms] t1 IH]; simpl; [reflexivity|assumption|].
  now rewrite IH.
Qed.

Lemma requests_backoff r delay retryCount k :
  requests (backoff r delay retryCount k) = replicate k r.
Proof.
  revert retryCount; induction k as [|k IH]; intros retryCount; simpl.
  - reflexivity.
  - now rewrite IH.
Qed.

Lemma makeRequest_clause_settle endpoint params retryCount w refine :
  makeRequest_unfold_clause_1 endpoint params retryCount w refine =
  settle endpoint params retryCount (proj1_sig refine).
Proof.
  destruct refine as [[outcome w1] e]; cbn.
  revert e; destruct outcome as [data|status data| |msg]; intros e; try reflexivity.
  destruct (PrimFloat.eqb status 429); cbn.
  - destruct (decide (retryCount < maxRetries (apiClient w1))) as [Hlt|Hge]; cbn.
    + rewrite bool_decide_eq_true_2 by assumption. reflexivity.
    + rewrite bool_decide_eq_false_2 by assumption. reflexivity.
  - destruct (decide (retryCount < maxRetries (apiClient w1))); reflexivity.
Qed.

(** The body of [makeRequest], one attempt at a time. *)
Lemma makeRequest_eq endpoint params retryCount w :
  makeRequest endpoint params retryCount w =
  settle endpoint params retryCount (axiosInstance_get endpoint params w).
Proof.
  rewrite makeRequest_equation_1. apply makeRequest_clause_settle.
Qed.

(** A rate-limited attempt below the maximum sleeps and calls
    [makeRequest] again with the same endpoint and parameters. *)
Lemma makeRequest_retry endpoint params retryCount w status data :
  upstream (length (requests (trace w)))
    {| req_endpoint := endpoint; req_params := params |}
    = AxiosErrorResponse status data ->
  PrimFloat.eqb status 429 = true ->
  retryCount < maxRetries (apiClient w) ->
  makeRequest endpoint params retryCount w =
  makeRequest endpoint params (retryCount + 1)
    (setTimeout (retryDelay (apiClient w) * 2 ^ Z.of_nat retryCount)
       (log (Get {| req_endpoint := endpoint; req_params := params |}) w)).
Proof.
  intros Hup H429 Hlt.
  rewrite makeRequest_eq at 1. unfold settle, axiosInstance_get.
  rewrite Hup, H429. simpl.
  now rewrite bool_decide_eq_true_2 by assumption.
Qed.

(** Any other answer, or a 429 at the maximum, ends the loop. *)
Lemma makeRequest_stop endpoint params retryCount w :
  let r := {| req_endpoint := endpoint; req_params := params |} in
  let o := upstream (length (requests (trace w))) r in
  is_429 o = false \/ maxRetries (apiClient w) <= retryCount ->
  makeRequest endpoint params retryCount w = (final o, log (Get r) w).
Proof.
  intros r o Hstop.
  rewrite makeRequest_eq. unfold settle, axiosInstance_get.
  fold r. fold o. destruct o as [data|status data| |e]; try reflexivity.
  simpl in *.
  destruct Hstop as [-> | Hge]; [reflexivity|].
  rewrite bool_decide_eq_false_2 by lia.
  now rewrite andb_false_r.
Qed.

(** The whole run of [makeRequest] in closed form: [k] rate-limited
    attempts, each followed by its sleep, then the attempt that decides. *)
Lemma makeRequest_run endpoint params retryCount w :
  let r := {| req_endpoint := endpoint; req_params := params |} in
  let n := length (requests (trace w)) in
  let k := retries r n (maxRetries (apiClient w) - retryCount) in
  makeRequest endpoint params retryCount w =
  (final (upstream (n + k) r),
   {| apiClient := apiClient w;
      trace := trace w
               ++ backoff r (retryDelay (apiClient w)) retryCount k
               ++ [Get r] |}).
Proof.
  intros r n k; subst k n.
  remember (maxRetries (apiClient w) - retryCount) as budget eqn:Hb.
  revert retryCount w Hb.
  induction budget as [|budget IH]; intros retryCount w Hb; simpl.
  - rewrite Nat.add_0_r.
    apply (makeRequest_stop endpoint params retryCount w). right. lia.
  - destruct (is_429 (upstream (length (requests (trace w))) r)) eqn:H429.
    + destruct (upstream (length (requests (trace w))) r)
        as [data|status data| |e] eqn:Hup; try discriminate.
      rewrite (makeRequest_retry _ _ _ _ status data Hup H429) by lia.
      rewrite IH by (simpl; lia).
      unfold setTimeout, log; simpl.
      rewrite !requests_app, !length_app; simpl.
      replace (length (requests (trace w)) + 1 + 0)
        with (S (length (requests (trace w)))) by lia.
      replace (retryCount + 1) with (S retryCount) by lia.
      rewrite Nat.add_succ_comm, <- !app_assoc. reflexivity.
    + rewrite Nat.add_0_r.
      apply (makeRequest_stop endpoint params retryCount w). left. exact H429.
Qed.

Lemma retries_le r n budget : retries r n budget <= budget.
Proof.
  revert n; induction budget as [|budget IH]; intros n; simpl; [lia|].
  destruct (is_429 (upstream n r)); [|lia].
  specialize (IH (S n)). lia.
Qed.

(** Every answer before the one that ends the loop was a 429. *)
Lemma retries_429 r n budget i :
  i < retries r n budget -> is_429 (upstream (n + i) r) = true.
Proof.
  revert n i; induction budget as [|budget IH]; intros n i; simpl; [lia|].
  destruct (is_429 (upstream n r)) eqn:H429; [|lia].
  destruct i as [|i]; intros Hi.
  - now rewrite Nat.add_0_r.
  - rewrite <- Nat.add_succ_comm. apply IH. lia.
Qed.

Lemma retries_all r n budget :
  (forall i, i < budget -> is_429 (upstream (n + i) r) = true) ->
  retries r n budget = budget.
Proof.
  revert n; induction budget as [|budget IH]; intros n Hall; simpl; [reflexivity|].
  rewrite <- (Nat.add_0_r n) at 1. rewrite Hall by lia.
  f_equal. apply IH. intros i Hi.
  rewrite Nat.add_succ_comm. apply Hall. lia.
Qed.

Lemma retries_upto r n budget k :
  k <= budget ->
  (forall i, i < k -> is_429 (upstream (n + i) r) = true) ->
  is_429 (upstream (n + k) r) = false ->
  retries r n budget = k.
Proof.
  revert n k; induction budget as [|budget IH]; intros n k Hk Hall Hend; simpl.
  - replace k with 0 by lia. reflexivity.
  - destruct k as [|k].
    + rewrite Nat.add_0_r in Hend. now rewrite Hend.
    + rewrite <- (Nat.add_0_r n) at 1. rewrite Hall by lia.
      f_equal. apply IH; [lia| |].
      * intros i Hi. rewrite Nat.add_succ_comm. apply Hall. lia.
      * now rewrite Nat.add_succ_comm.
Qed.

(** The loop stops on a 429 only when the retries are used up. *)
Lemma retries_used_up r n budget :
  is_429 (upstream (n + retries r n budget) r) = true ->
  retries r n budget = budget.
Proof.
  revert n; induction budget as [|budget IH]; intros n; simpl; [reflexivity|].
  destruct (is_429 (upstream n r)) eqn:H429.
  - rewrite <- Nat.add_succ_comm. intros H. now rewrite IH.
  - rewrite Nat.add_0_r. congruence.
Qed.

Lemma issued_extend w t :
  issued w {| apiClient := apiClient w; trace := trace w ++ t |} = requests t.
Proof.
  unfold issued; simpl. rewrite requests_app. apply drop_app_length.
Qed.

Lemma slept_extend w t :
  slept w {| apiClient := apiClient w; trace := trace w ++ t |} = sleeps t.
Proof.
  unfold slept; simpl. rewrite sleeps_app. apply drop_app_length.
Qed.

Lemma issued_refl w : issued w w = [].
Proof. unfold issued. apply drop_all. Qed.

(** The GETs of one [makeRequest]: the same request, once per attempt. *)
Lemma makeRequest_issued endpoint params retryCount w :
  let r := {| req_endpoint := endpoint; req_params := params |} in
  let k := retries r (length (requests (trace w)))
             (maxRetries (apiClient w) - retryCount) in
  issued w (makeRequest endpoint params retryCount w).2 = replicate (S k) r.
Proof.
  intros r k. rewrite makeRequest_run; simpl.
  rewrite issued_extend, requests_app, requests_backoff; simpl.
  fold r. fold k. now rewrite <- replicate_cons_app.
Qed.

Lemma makeRequest_apiClient endpoint params retryCount w :
  apiClient (makeRequest endpoint params retryCount w).2 = apiClient w.
Proof. now rewrite makeRequest_run. Qed.

(** *** Envelopes *)

Lemma falsy_prop v k : truthy v = false -> v.[k] = JUndefined.
Proof. destruct v; simpl; congruence. Qed.

(** The guard of [getFlightData] reads the envelope path [result]. *)
Lemma guard_1 response a :
  negb (truthy response) || negb (truthy response.[a])
  = negb (truthy (terminal [a] response)).
Proof.
  unfold terminal; simpl.
  destruct (truthy response) eqn:H0; simpl; [reflexivity|].
  now rewrite (falsy_prop _ a H0).
Qed.

(** The guard of the other methods reads a path of three steps. *)
Lemma guard_3 response a b c :
  negb (truthy response) || negb (truthy response.[a])
    || negb (truthy response.[a].[b])
    || negb (truthy response.[a].[b].[c])
  = negb (truthy (terminal [a; b; c] response)).
Proof.
  unfold terminal; simpl.
  destruct (truthy response) eqn:H0; simpl.
  - destruct (truthy response.[a]) eqn:H1; simpl.
    + destruct (truthy response.[a].[b]) eqn:H2; simpl; [reflexivity|].
      now rewrite (falsy_prop _ c H2).
    + now rewrite (falsy_prop _ b H1).
  - now rewrite (falsy_prop _ a H0).
Qed.

(** *** The mapping layer *)

Ltac unwrap_with Hreq Hmiss :=
  unfold bind; rewrite Hreq;
  first [rewrite guard_3 | rewrite guard_1];
  unfold envelope_missing in Hmiss; rewrite Hmiss; reflexivity.

(** C2. A single-entity lookup whose transport request returned a body
    that lacks the terminal object of its envelope path ([result] for a
    flight, [result.response.airport], [result.response.airline],
    [result.response.aircraft] for the others) throws the not-found
    [McpError]; it returns no record at all. *)
Theorem detail_missing_envelope_not_found (w : World) (response : value) :
  (forall flightId w',
      makeRequest (ENDPOINTS.FLIGHT_INFO +:+ "/" +:+ flightId) ∅ 0 w
        = (Return response, w') ->
      envelope_missing ["result"] response ->
      getFlightData flightId w =
        (Throw (McpError InvalidRequest
                  ("No flight data found for flight ID: " +:+ flightId)), w'))
  /\ (forall airportCode w',
      makeRequest ENDPOINTS.AIRPORT_DATA
        (if String.length airportCode =? 3
         then {[ "iata" := JStr airportCode ]}
         else {[ "icao" := JStr airportCode ]}) 0 w
        = (Return response, w') ->
      envelope_missing ["result"; "response"; "airport"] response ->
      getAirportData airportCode w =
        (Throw (McpError InvalidRequest
                  ("No airport data found for airport code: " +:+ airportCode)), w'))
  /\ (forall airlineCode w',
      makeRequest ENDPOINTS.AIRLINE_DATA
        (if String.length airlineCode =? 2
         then {[ "iata" := JStr airlineCode ]}
         else {[ "icao" := JStr airlineCode ]}) 0 w
        = (Return response, w') ->
      envelope_missing ["result"; "response"; "airline"] response ->
      getAirlineData airlineCode w =
        (Throw (McpError InvalidRequest
                  ("No airline data found for airline code: " +:+ airlineCode)), w'))
  /\ (forall registration w',
      makeRequest (ENDPOINTS.AIRCRAFT_DATA +:+ "/" +:+ registration) ∅ 0 w
        = (Return response, w') ->
      envelope_missing ["result"; "response"; "aircraft"] response ->
      getAircraftData registration w =
        (Throw (McpError InvalidRequest
                  ("No aircraft data found for registration: " +:+ registration)), w')).
Proof.
  repeat split.
  - intros flightId w' Hreq Hmiss. unfold getFlightData. unwrap_with Hreq Hmiss.
  - intros airportCode w' Hreq Hmiss. unfold getAirportData. unwrap_with Hreq Hmiss.
  - intros airlineCode w' Hreq Hmiss. unfold getAirlineData. unwrap_with Hreq Hmiss.
  - intros registration w' Hreq Hmiss. unfold getAircraftData. unwrap_with Hreq Hmiss.
Qed.

(** C3. A multi-entity query whose transport request returned a body
    that lacks the terminal array ([result], [result.response] or the
    [flights] / [airports] field is absent) succeeds with the empty
    array. *)
Theorem search_missing_envelope_empty (w : World) (response : value) :
  (forall params w',
      makeRequest ENDPOINTS.FLIGHT_DATA (FlightSearchParams.object params) 0 w
        = (Return response, w') ->
      envelope_missing ["result"; "response"; "flights"] response ->
      searchFlights params w = (Return (JArr []), w'))
  /\ (forall params w',
      makeRequest ENDPOINTS.AIRPORT_DATA (AirportSearchParams.object params) 0 w
        = (Return response, w') ->
      envelope_missing ["result"; "response"; "airports"] response ->
      searchAirports params w = (Return (JArr []), w'))
  /\ (forall bounds w',
      makeRequest ENDPOINTS.ZONES
        {[ "bounds" := JStr (Number_toString (north bounds) +:+ ","
                             +:+ Number_toString (south bounds) +:+ ","
                             +:+ Number_toString (west bounds) +:+ ","
                             +:+ Number_toString (east bounds)) ]} 0 w
        = (Return response, w') ->
      envelope_missing ["result"; "response"; "flights"] response ->
      getFlightsInZone bounds w = (Return (JArr []), w')).
Proof.
  repeat split.
  - intros params w' Hreq Hmiss. unfold searchFlights. unwrap_with Hreq Hmiss.
  - intros params w' Hreq Hmiss. unfold searchAirports. unwrap_with Hreq Hmiss.
  - intros bounds w' Hreq Hmiss. unfold getFlightsInZone. unwrap_with Hreq Hmiss.
Qed.

(** What follows the transport request in a method touches nothing
    outside: the world after the method is the world after the request. *)
Lemma bind_pure_world {A B} (m : M A) (k : A -> M B) w :
  (forall a w1, (k a w1).2 = w1) -> (bind m k w).2 = (m w).2.
Proof.
  intros Hk. unfold bind. destruct (m w) as [[a|e] w1]; simpl; [apply Hk|reflexivity].
Qed.

Lemma rendered_world (m : M value) (render : value -> Result value) w :
  (bind m (fun records => lift (render records)) w).2 = (m w).2.
Proof. now apply bind_pure_world. Qed.

Ltac pure_continuation :=
  apply bind_pure_world; intros a w1;
  match goal with |- context [if ?c then _ else _] => destruct c end;
  reflexivity.

Lemma getFlightData_world flightId w :
  (getFlightData flightId w).2 =
  (makeRequest (ENDPOINTS.FLIGHT_INFO +:+ "/" +:+ flightId) ∅ 0 w).2.
Proof. unfold getFlightData. pure_continuation. Qed.

Lemma searchFlights_world params w :
  (searchFlights params w).2 =
  (makeRequest ENDPOINTS.FLIGHT_DATA (FlightSearchParams.object params) 0 w).2.
Proof. unfold searchFlights. pure_continuation. Qed.

Lemma getAirportData_world airportCode w :
  (getAirportData airportCode w).2 =
  (makeRequest ENDPOINTS.AIRPORT_DATA
     (if String.length airportCode =? 3
      then {[ "iata" := JStr airportCode ]}
      else {[ "icao" := JStr airportCode ]}) 0 w).2.
Proof. unfold getAirportData. pure_continuation. Qed.

Lemma searchAirports_world params w :
  (searchAirports params w).2 =
  (makeRequest ENDPOINTS.AIRPORT_DATA (AirportSearchParams.object params) 0 w).2.
Proof. unfold searchAirports. pure_continuation. Qed.

Lemma getAirlineData_world airlineCode w :
  (getAirlineData airlineCode w).2 =
  (makeRequest ENDPOINTS.AIRLINE_DATA
     (if String.length airlineCode =? 2
      then {[ "iata" := JStr airlineCode ]}
      else {[ "icao" := JStr airlineCode ]}) 0 w).2.
Proof. unfold getAirlineData. pure_continuation. Qed.

Lemma getAircraftData_world registration w :
  (getAircraftData registration w).2 =
  (makeRequest (ENDPOINTS.AIRCRAFT_DATA +:+ "/" +:+ registration) ∅ 0 w).2.
Proof. unfold getAircraftData. pure_continuation. Qed.

Lemma getFlightsInZone_world bounds w :
  (getFlightsInZone bounds w).2 =
  (makeRequest ENDPOINTS.ZONES
     {[ "bounds" := JStr (Number_toString (north bounds) +:+ ","
                          +:+ Number_toString (south bounds) +:+ ","
                          +:+ Number_toString (west bounds) +:+ ","
                          +:+ Number_toString (east bounds)) ]} 0 w).2.
Proof. unfold getFlightsInZone. pure_continuation. Qed.

(** All the GETs of one transport request carry its endpoint and
    parameters, and there is at least one. *)
Lemma makeRequest_requests endpoint params retryCount w :
  let w' := (makeRequest endpoint params retryCount w).2 in
  issued w w' <> []
  /\ forall r, r ∈ issued w w' ->
       r = {| req_endpoint := endpoint; req_params := params |}.
Proof.
  simpl. rewrite makeRequest_issued. split; [discriminate|].
  intros r Hr. apply elem_of_replicate in Hr. tauto.
Qed.

Lemma singleton_lookup_iff (k k' : string) (v : value) :
  ({[ k := v ]} : gmap string value) !! k' = Some v <-> k = k'.
Proof.
  rewrite lookup_singleton_Some. tauto.
Qed.

(** C5. [getAirportData] sends the code as [iata] exactly when its length
    is 3 and as [icao] for every other length; [getAirlineData] sends it
    as [iata] exactly when its length is 2 and as [icao] otherwise.  This
    holds for every string: the code is not inspected beyond its length,
    and a request is always issued. *)
Theorem code_length_selects_parameter (code : string) (w : World) :
  (let w' := (getAirportData code w).2 in
   issued w w' <> []
   /\ forall r, r ∈ issued w w' ->
        req_endpoint r = "/airports"
        /\ req_params r =
             {[ (if String.length code =? 3 then "iata" else "icao") := JStr code ]}
        /\ (req_params r !! "iata" = Some (JStr code) <-> String.length code = 3)
        /\ (req_params r !! "icao" = Some (JStr code) <-> String.length code <> 3))
  /\ (let w' := (getAirlineData code w).2 in
      issued w w' <> []
      /\ forall r, r ∈ issued w w' ->
           req_endpoint r = "/airlines"
           /\ req_params r =
                {[ (if String.length code =? 2 then "iata" else "icao") := JStr code ]}
           /\ (req_params r !! "iata" = Some (JStr code) <-> String.length code = 2)
           /\ (req_params r !! "icao" = Some (JStr code) <-> String.length code <> 2)).
Proof.
  split; simpl.
  - rewrite getAirportData_world.
    destruct (makeRequest_requests ENDPOINTS.AIRPORT_DATA
                (if String.length code =? 3
                 then {[ "iata" := JStr code ]}
                 else {[ "icao" := JStr code ]}) 0 w) as [Hne Hall].
    split; [exact Hne|]. intros r Hr. rewrite (Hall r Hr); simpl.
    destruct (Nat.eqb_spec (String.length code) 3) as [Heq|Hneq];
      rewrite !singleton_lookup_iff; repeat split; try done.
  - rewrite getAirlineData_world.
    destruct (makeRequest_requests ENDPOINTS.AIRLINE_DATA
                (if String.length code =? 2
                 then {[ "iata" := JStr code ]}
                 else {[ "icao" := JStr code ]}) 0 w) as [Hne Hall].
    split; [exact Hne|]. intros r Hr. rewrite (Hall r Hr); simpl.
    destruct (Nat.eqb_spec (String.length code) 2) as [Heq|Hneq];
      rewrite !singleton_lookup_iff; repeat split; try done.
Qed.

(** *** The transport layer *)

(** C6. A 401 answer makes [makeRequest] throw the invalid-key error at
    once, whatever the attempt count: that attempt is its only GET and no
    timer is set. *)
Theorem unauthorized_fails_at_once endpoint params retryCount w data :
  let r := {| req_endpoint := endpoint; req_params := params |} in
  upstream (length (requests (trace w))) r = AxiosErrorResponse 401 data ->
  let w' := (makeRequest endpoint params retryCount w).2 in
  makeRequest endpoint params retryCount w =
    (Throw (McpError InvalidRequest ERROR_MESSAGES.INVALID_API_KEY),
     log (Get r) w)
  /\ issued w w' = [r]
  /\ slept w w' = [].
Proof.
  intros r Hup.
  assert (Hrun : makeRequest endpoint params retryCount w =
                 (Throw (McpError InvalidRequest ERROR_MESSAGES.INVALID_API_KEY),
                  log (Get r) w)).
  { rewrite (makeRequest_stop endpoint params retryCount w).
    - fold r. rewrite Hup. reflexivity.
    - left. fold r. rewrite Hup. reflexivity. }
  simpl. rewrite Hrun; simpl. split; [reflexivity|].
  unfold log. rewrite issued_extend, slept_extend. split; reflexivity.
Qed.

Lemma classify_429 data :
  classify 429 data =
  McpError InternalError
    (ERROR_MESSAGES.API_ERROR +:+ ": " +:+ Number_toString 429
       +:+ " - " +:+ JSON_stringify data).
Proof. reflexivity. Qed.

Lemma api_error_is_not_rate_limit tail :
  ERROR_MESSAGES.API_ERROR +:+ tail <> ERROR_MESSAGES.RATE_LIMIT_EXCEEDED.
Proof. cbn. discriminate. Qed.

Lemma literal_429 o data : o = AxiosErrorResponse 429 data -> is_429 o = true.
Proof. intros ->. reflexivity. Qed.

(** C1. What the code does when every attempt is answered 429, for a
    client with the maximum of 3 retries: it issues four GETs with the
    sleeps in between and no fifth one, and the error it throws after
    the fourth 429 is the generic API error built from the status and
    the body, the one any other failing status gets.  The message
    [RATE_LIMIT_EXCEEDED] is never the one thrown. *)
Theorem rate_limit_exhausted_surfaces_api_error endpoint params w data :
  let r := {| req_endpoint := endpoint; req_params := params |} in
  let n := length (requests (trace w)) in
  let d := retryDelay (apiClient w) in
  let w' := (makeRequest endpoint params 0 w).2 in
  maxRetries (apiClient w) = 3 ->
  (forall i, i < 3 -> exists body, upstream (n + i) r = AxiosErrorResponse 429 body) ->
  upstream (n + 3) r = AxiosErrorResponse 429 data ->
  makeRequest endpoint params 0 w =
    (Throw (McpError InternalError
              (ERROR_MESSAGES.API_ERROR +:+ ": " +:+ Number_toString 429
                 +:+ " - " +:+ JSON_stringify data)),
     {| apiClient := apiClient w;
        trace := trace w ++ [Get r; Sleep (d * 2 ^ 0); Get r; Sleep (d * 2 ^ 1);
                             Get r; Sleep (d * 2 ^ 2); Get r] |})
  /\ issued w w' = [r; r; r; r]
  /\ forall code,
       (makeRequest endpoint params 0 w).1
       <> Throw (McpError code ERROR_MESSAGES.RATE_LIMIT_EXCEEDED).
Proof.
  intros r n d w' Hmax Hall Hlast. subst w'.
  assert (Hk : retries r n (maxRetries (apiClient w) - 0) = 3).
  { rewrite Hmax. apply (retries_all r n 3). intros i Hi.
    destruct (Hall i Hi) as [di Hi']. exact (literal_429 _ _ Hi'). }
  assert (Hrun : makeRequest endpoint params 0 w =
                 (Throw (classify 429 data),
                  {| apiClient := apiClient w;
                     trace := trace w ++ [Get r; Sleep (d * 2 ^ 0); Get r; Sleep (d * 2 ^ 1);
                                          Get r; Sleep (d * 2 ^ 2); Get r] |})).
  { rewrite makeRequest_run. fold r. fold n. rewrite Hk, Hlast. reflexivity. }
  rewrite Hrun, classify_429; cbn [fst snd].
  split; [reflexivity|]. split.
  - rewrite issued_extend. reflexivity.
  - intros code Heq.
    apply (api_error_is_not_rate_limit
             (": " +:+ Number_toString 429 +:+ " - " +:+ JSON_stringify data)).
    congruence.
Qed.

(** C4. When the first three attempts are answered 429 and the fourth
    is answered with a body, [makeRequest] returns that body after
    exactly four GETs and three sleeps of [retryDelay * 2 ^ retryCount]
    for the attempt counts 0, 1, 2, which is 1000, 2000 and 4000 ms when
    [retryDelay] is 1000.  An answer that is not a 429 is never retried,
    and a retry is the same call with the attempt count plus one. *)
Theorem three_429_then_200 endpoint params w payload :
  let r := {| req_endpoint := endpoint; req_params := params |} in
  let n := length (requests (trace w)) in
  let d := retryDelay (apiClient w) in
  let w' := (makeRequest endpoint params 0 w).2 in
  3 <= maxRetries (apiClient w) ->
  (forall i, i < 3 -> exists data, upstream (n + i) r = AxiosErrorResponse 429 data) ->
  upstream (n + 3) r = Resolved payload ->
  makeRequest endpoint params 0 w =
    (Return payload,
     {| apiClient := apiClient w;
        trace := trace w ++ [Get r; Sleep (d * 2 ^ 0); Get r; Sleep (d * 2 ^ 1);
                             Get r; Sleep (d * 2 ^ 2); Get r] |})
  /\ slept w w' = [d * 2 ^ 0; d * 2 ^ 1; d * 2 ^ 2]%Z
  /\ (d = 1000%Z -> slept w w' = [1000; 2000; 4000]%Z)
  /\ issued w w' = [r; r; r; r]
  /\ (forall retryCount w0,
        is_429 (upstream (length (requests (trace w0))) r) = false ->
        makeRequest endpoint params retryCount w0 =
          (final (upstream (length (requests (trace w0))) r), log (Get r) w0))
  /\ (forall retryCount w0 data,
        upstream (length (requests (trace w0))) r = AxiosErrorResponse 429 data ->
        retryCount < maxRetries (apiClient w0) ->
        makeRequest endpoint params retryCount w0 =
          makeRequest endpoint params (retryCount + 1)
            (setTimeout (retryDelay (apiClient w0) * 2 ^ Z.of_nat retryCount)
               (log (Get r) w0))).
Proof.
  intros r n d w' Hmax Hall Hok. subst w'.
  assert (Hk : retries r n (maxRetries (apiClient w) - 0) = 3).
  { apply retries_upto; [lia| |].
    - intros i Hi. destruct (Hall i Hi) as [di Hi']. exact (literal_429 _ _ Hi').
    - fold n. now rewrite Hok. }
  assert (Hrun : makeRequest endpoint params 0 w =
                 (Return payload,
                  {| apiClient := apiClient w;
                     trace := trace w ++ [Get r; Sleep (d * 2 ^ 0); Get r; Sleep (d * 2 ^ 1);
                                          Get r; Sleep (d * 2 ^ 2); Get r] |})).
  { rewrite makeRequest_run. fold r. fold n. rewrite Hk, Hok. reflexivity. }
  rewrite Hrun; simpl. split; [reflexivity|].
  rewrite issued_extend, slept_extend.
  repeat split.
  - intros ->. reflexivity.
  - intros retryCount w0 Hnot.
    apply (makeRequest_stop endpoint params retryCount w0). left. exact Hnot.
  - intros retryCount w0 data Hup Hlt.
    apply (makeRequest_retry endpoint params retryCount w0 429 data Hup);
      [reflexivity|exact Hlt].
Qed.


(** *** The client object *)

Lemma run_apiClient op w : apiClient (run op w).2 = apiClient w.
Proof.
  destruct op; simpl;
    [rewrite getFlightData_world | rewrite searchFlights_world
    | rewrite getAirportData_world | rewrite searchAirports_world
    | rewrite getAirlineData_world | rewrite getAircraftData_world
    | rewrite getFlightsInZone_world];
    apply makeRequest_apiClient.
Qed.

(** C8. Construction with an absent or empty key throws the
    missing-key error, and it does so without a world: no request is
    involved.  With any other key it returns the client with the fixed
    base address, that key, the 10 s timeout and the retry policy
    (1000 ms, 3 retries); no public method changes the client object
    afterwards. *)
Theorem construction_and_immutability :
  new_Flightradar24ApiClient None
    = Throw (McpError InvalidParams ERROR_MESSAGES.MISSING_API_KEY)
  /\ new_Flightradar24ApiClient (Some "")
      = Throw (McpError InvalidParams ERROR_MESSAGES.MISSING_API_KEY)
  /\ (forall key, key <> "" ->
        new_Flightradar24ApiClient (Some key) =
        Return {|
          axiosInstance := {|
            baseURL := "https://api.flightradar24.com/v1";
            timeout := 10000;
            headers := [("Authorization", "Bearer " +:+ key);
                        ("Content-Type", "application/json")]
          |};
          apiKey := key;
          baseUrl := "https://api.flightradar24.com/v1";
          retryDelay := 1000;
          maxRetries := 3
        |})
  /\ (forall op w, apiClient (run op w).2 = apiClient w)
  /\ (forall endpoint params retryCount w,
        apiClient (makeRequest endpoint params retryCount w).2 = apiClient w).
Proof.
  split; [reflexivity|]. split; [reflexivity|]. split.
  - intros key Hkey. unfold new_Flightradar24ApiClient; simpl.
    unfold truthy_string. apply String.eqb_neq in Hkey. now rewrite Hkey.
  - split; [apply run_apiClient|apply makeRequest_apiClient].
Qed.

(** *** The tools *)

Lemma try_catch_rethrow_world prefix (m : M value) w :
  (try_catch m (rethrow prefix) w).2 = (m w).2.
Proof.
  unfold try_catch. destruct (m w) as [[a|[code msg|msg]] w1]; reflexivity.
Qed.

Lemma searchFlightsTool_world args w :
  (searchFlightsTool args w).2 = w
  \/ (searchFlightsTool args w).2 =
     (searchFlights
        (FlightSearchParams.with_limit args
           (limit_or (FlightSearchParams.limit args) 10)) w).2.
Proof.
  unfold searchFlightsTool. rewrite try_catch_rethrow_world.
  match goal with |- context [if ?c then _ else _] => destruct c end;
    [left; reflexivity|].
  destruct (FlightSearchParams.bounds args) as [b|]; cbv [bind ret throw lift].
  - destruct (PrimFloat.ltb (north b) (south b)); [left; reflexivity|].
    destruct (PrimFloat.ltb (east b) (west b)); [left; reflexivity|].
    right. destruct (searchFlights _ w) as [[a|e] w1]; reflexivity.
  - right. destruct (searchFlights _ w) as [[a|e] w1]; reflexivity.
Qed.

Lemma searchAirportsTool_world args w :
  (searchAirportsTool args w).2 = w
  \/ (searchAirportsTool args w).2 =
     (searchAirports
        (AirportSearchParams.with_limit args
           (limit_or (AirportSearchParams.limit args) 10)) w).2.
Proof.
  unfold searchAirportsTool. rewrite try_catch_rethrow_world.
  match goal with |- context [if ?c then _ else _] => destruct c end;
    [left; reflexivity|].
  right. cbv [bind lift].
  destruct (searchAirports _ w) as [[a|e] w1]; reflexivity.
Qed.

Lemma FlightSearchParams_limit_sent args l :
  FlightSearchParams.object (FlightSearchParams.with_limit args l) !! "limit"
  = Some (JNum l).
Proof.
  unfold FlightSearchParams.object, FlightSearchParams.with_limit; simpl.
  destruct (FlightSearchParams.airline_iata args),
           (FlightSearchParams.airline_icao args),
           (FlightSearchParams.flight_number args),
           (FlightSearchParams.flight_iata args),
           (FlightSearchParams.flight_icao args),
           (FlightSearchParams.registration args),
           (FlightSearchParams.bounds args); simpl;
    repeat (rewrite lookup_insert_ne by done); apply lookup_insert_eq.
Qed.

Lemma AirportSearchParams_limit_sent args l :
  AirportSearchParams.object (AirportSearchParams.with_limit args l) !! "limit"
  = Some (JNum l).
Proof.
  unfold AirportSearchParams.object, AirportSearchParams.with_limit; simpl.
  destruct (AirportSearchParams.iata args), (AirportSearchParams.icao args),
           (AirportSearchParams.name args), (AirportSearchParams.country args);
    simpl; repeat (rewrite lookup_insert_ne by done); apply lookup_insert_eq.
Qed.

Lemma limit_or_truthy l : truthy_number (limit_or l 10) = true.
Proof.
  unfold limit_or. destruct l as [x|]; [|reflexivity].
  destruct (truthy_number x) eqn:Hx; [exact Hx|reflexivity].
Qed.

Lemma truthy_number_not_zero x : truthy_number x = true -> x <> 0%float.
Proof. intros Hx ->. discriminate Hx. Qed.

Lemma no_criterion_of_7 a b c d e f g :
  negb a && negb b && negb c && negb d && negb e && negb f && negb g
  = negb (a || b || c || d || e || f || g).
Proof. destruct a, b, c, d, e, f, g; reflexivity. Qed.

Lemma no_criterion_of_4 a b c d :
  negb a && negb b && negb c && negb d = negb (a || b || c || d).
Proof. destruct a, b, c, d; reflexivity. Qed.

(** Accepted arguments reach [searchFlights], with the limit replaced. *)
Lemma searchFlightsTool_accepted args w :
  flight_search_accepted args = true ->
  searchFlightsTool args w =
  try_catch
    (flights <- searchFlights
                  (FlightSearchParams.with_limit args
                     (limit_or (FlightSearchParams.limit args) 10)) ;;
     lift (render_search_flights
             (FlightSearchParams.with_limit args
                (limit_or (FlightSearchParams.limit args) 10)) flights))
    (rethrow "Error searching for flights: ") w.
Proof.
  unfold flight_search_accepted, searchFlightsTool.
  rewrite no_criterion_of_7.
  intros Hacc. apply andb_true_iff in Hacc as [Hcriterion Horder].
  rewrite Hcriterion. cbn [negb].
  destruct (FlightSearchParams.bounds args) as [b|]; [|reflexivity].
  apply andb_true_iff in Horder as [Hns Hew].
  apply negb_true_iff in Hns, Hew. rewrite Hns, Hew. reflexivity.
Qed.

Lemma searchFlightsTool_refused args w :
  flight_search_accepted args = false ->
  exists message,
    searchFlightsTool args w = (Throw (McpError InvalidParams message), w).
Proof.
  unfold flight_search_accepted, searchFlightsTool.
  rewrite no_criterion_of_7.
  match goal with |- context [negb ?c] => destruct c end; cbn [negb andb].
  - destruct (FlightSearchParams.bounds args) as [b|]; [|discriminate].
    destruct (PrimFloat.ltb (north b) (south b)); [eexists; reflexivity|].
    destruct (PrimFloat.ltb (east b) (west b)); [eexists; reflexivity|].
    discriminate.
  - eexists; reflexivity.
Qed.

(** Accepted arguments reach [searchAirports], with the limit replaced. *)
Lemma searchAirportsTool_accepted args w :
  airport_search_accepted args = true ->
  searchAirportsTool args w =
  try_catch
    (airports <- searchAirports
                   (AirportSearchParams.with_limit args
                      (limit_or (AirportSearchParams.limit args) 10)) ;;
     lift (render_search_airports
             (AirportSearchParams.with_limit args
                (limit_or (AirportSearchParams.limit args) 10)) airports))
    (rethrow "Error searching for airports: ") w.
Proof.
  unfold airport_search_accepted, searchAirportsTool.
  rewrite no_criterion_of_4. intros ->. reflexivity.
Qed.

Lemma searchAirportsTool_refused args w :
  airport_search_accepted args = false ->
  exists message,
    searchAirportsTool args w = (Throw (McpError InvalidParams message), w).
Proof.
  unfold airport_search_accepted, searchAirportsTool.
  rewrite no_criterion_of_4. intros ->. eexists; reflexivity.
Qed.

(** C10. The two search tools replace an absent or falsy limit by 10
    before they invoke the client: arguments that pass validation reach
    [searchFlights] (resp. [searchAirports]) with every field as given and
    the limit set to the caller's when it is truthy and to 10 otherwise,
    the transport request that follows carries that limit, and at least
    one is made.  An absent limit, 0, and every other falsy limit are
    replaced by 10, so a limit of 0 is never sent; arguments that do not
    pass validation are answered with [InvalidParams] and cause no GET. *)
Theorem tool_limit_defaults_to_10 :
  (forall args w r,
      r ∈ issued w (searchFlightsTool args w).2 ->
      exists l,
        req_params r !! "limit" = Some (JNum l)
        /\ l = limit_or (FlightSearchParams.limit args) 10
        /\ truthy_number l = true /\ l <> 0%float)
  /\ (forall args w r,
      r ∈ issued w (searchAirportsTool args w).2 ->
      exists l,
        req_params r !! "limit" = Some (JNum l)
        /\ l = limit_or (AirportSearchParams.limit args) 10
        /\ truthy_number l = true /\ l <> 0%float)
  /\ limit_or None 10 = 10%float
  /\ limit_or (Some 0%float) 10 = 10%float
  /\ (forall x, truthy_number x = false -> limit_or (Some x) 10 = 10%float)
  /\ (forall args w,
      flight_search_accepted args = true ->
      let searchParams :=
        FlightSearchParams.with_limit args
          (limit_or (FlightSearchParams.limit args) 10) in
      searchFlightsTool args w =
        try_catch
          (flights <- searchFlights searchParams ;;
           lift (render_search_flights searchParams flights))
          (rethrow "Error searching for flights: ") w
      /\ (searchFlightsTool args w).2 = (searchFlights searchParams w).2
      /\ issued w (searchFlightsTool args w).2 <> []
      /\ forall r, r ∈ issued w (searchFlightsTool args w).2 ->
           r = {| req_endpoint := "/flights";
                  req_params := FlightSearchParams.object searchParams |})
  /\ (forall args w,
      airport_search_accepted args = true ->
      let searchParams :=
        AirportSearchParams.with_limit args
          (limit_or (AirportSearchParams.limit args) 10) in
      searchAirportsTool args w =
        try_catch
          (airports <- searchAirports searchParams ;;
           lift (render_search_airports searchParams airports))
          (rethrow "Error searching for airports: ") w
      /\ (searchAirportsTool args w).2 = (searchAirports searchParams w).2
      /\ issued w (searchAirportsTool args w).2 <> []
      /\ forall r, r ∈ issued w (searchAirportsTool args w).2 ->
           r = {| req_endpoint := "/airports";
                  req_params := AirportSearchParams.object searchParams |})
  /\ (forall args w,
      flight_search_accepted args = false ->
      exists message,
        searchFlightsTool args w = (Throw (McpError InvalidParams message), w))
  /\ (forall args w,
      airport_search_accepted args = false ->
      exists message,
        searchAirportsTool args w = (Throw (McpError InvalidParams message), w)).
Proof.
  split; [|split; [|split; [reflexivity|split; [reflexivity|split;
    [|split; [|split; [|split]]]]]]].
  - intros args w r Hr.
    destruct (searchFlightsTool_world args w) as [Hw|Hw]; rewrite Hw in Hr.
    + rewrite issued_refl in Hr. now apply elem_of_nil in Hr.
    + rewrite searchFlights_world in Hr.
      apply makeRequest_requests in Hr. subst r; simpl.
      exists (limit_or (FlightSearchParams.limit args) 10).
      split; [apply FlightSearchParams_limit_sent|].
      split; [reflexivity|].
      split; [apply limit_or_truthy|].
      apply truthy_number_not_zero, limit_or_truthy.
  - intros args w r Hr.
    destruct (searchAirportsTool_world args w) as [Hw|Hw]; rewrite Hw in Hr.
    + rewrite issued_refl in Hr. now apply elem_of_nil in Hr.
    + rewrite searchAirports_world in Hr.
      apply makeRequest_requests in Hr. subst r; simpl.
      exists (limit_or (AirportSearchParams.limit args) 10).
      split; [apply AirportSearchParams_limit_sent|].
      split; [reflexivity|].
      split; [apply limit_or_truthy|].
      apply truthy_number_not_zero, limit_or_truthy.
  - intros x Hx. unfold limit_or. now rewrite Hx.
  - intros args w Hacc searchParams.
    assert (Hw : (searchFlightsTool args w).2 = (searchFlights searchParams w).2).
    { rewrite searchFlightsTool_accepted by assumption.
      rewrite try_catch_rethrow_world. apply rendered_world. }
    split; [now apply searchFlightsTool_accepted|].
    split; [exact Hw|].
    rewrite Hw, searchFlights_world.
    exact (makeRequest_requests ENDPOINTS.FLIGHT_DATA _ 0 w).
  - intros args w Hacc searchParams.
    assert (Hw : (searchAirportsTool args w).2 = (searchAirports searchParams w).2).
    { rewrite searchAirportsTool_accepted by assumption.
      rewrite try_catch_rethrow_world. apply rendered_world. }
    split; [now apply searchAirportsTool_accepted|].
    split; [exact Hw|].
    rewrite Hw, searchAirports_world.
    exact (makeRequest_requests ENDPOINTS.AIRPORT_DATA _ 0 w).
  - intros args w. apply searchFlightsTool_refused.
  - intros args w. apply searchAirportsTool_refused.
Qed.

Lemma getFlightsInZoneTool_rejects b w :
  rejected_by_tool b = true ->
  exists message,
    getFlightsInZoneTool b w = (Throw (McpError InvalidParams message), w).
Proof.
  unfold rejected_by_tool, getFlightsInZoneTool, try_catch; destruct b as [n s we e]; simpl.
  intros Hrej.
  destruct (PrimFloat.ltb n s); [eexists; reflexivity|].
  destruct (PrimFloat.ltb e we); [eexists; reflexivity|].
  simpl in Hrej.
  destruct (PrimFloat.ltb 90 n || PrimFloat.ltb s (-90)); [eexists; reflexivity|].
  simpl in Hrej. rewrite Hrej. eexists; reflexivity.
Qed.

Lemma getFlightsInZoneTool_forwards b w :
  rejected_by_tool b = false ->
  (getFlightsInZoneTool b w).2 = (getFlightsInZone b w).2.
Proof.
  unfold rejected_by_tool, getFlightsInZoneTool; destruct b as [n s we e]; simpl.
  intros Hrej. rewrite try_catch_rethrow_world.
  destruct (PrimFloat.ltb n s); [discriminate|].
  destruct (PrimFloat.ltb e we); [discriminate|].
  simpl in Hrej.
  destruct (PrimFloat.ltb 90 n || PrimFloat.ltb s (-90)); [discriminate|].
  simpl in Hrej. rewrite Hrej.
  cbv [bind lift].
  destruct (getFlightsInZone _ w) as [[a|err] w1]; reflexivity.
Qed.

(** C7, as amended. For every bounds, valid or not, [getFlightsInZone]
    checks nothing and makes one transport request, to [/zones] with the
    four values comma-joined in the order north, south, west, east: one
    GET when the answer is not a 429, and otherwise the same GET again
    after each 429, at most [maxRetries] more times.  The number of GETs
    is fixed by the answers: the loop goes on as long as the answer is a
    429 and stops before [maxRetries] re-issues only on an answer that is
    not one, so a first 429 is followed by a second GET whenever a retry
    is allowed.  Bounds are turned down only by the tool, which then
    throws [InvalidParams] without any GET; the bounds it lets through
    reach the client as they are. *)
Theorem zone_bounds_forwarded_unvalidated (b : Bounds) (w : World) :
  let r := zone_request b in
  let n := length (requests (trace w)) in
  let w' := (getFlightsInZone b w).2 in
  (exists k,
      k <= maxRetries (apiClient w)
      /\ issued w w' = replicate (S k) r
      /\ (forall i, i < k -> is_429 (upstream (n + i) r) = true)
      /\ (k < maxRetries (apiClient w) ->
            is_429 (upstream (n + k) r) = false))
  /\ (is_429 (upstream n r) = false -> issued w w' = [r])
  /\ (is_429 (upstream n r) = true -> 0 < maxRetries (apiClient w) ->
        exists rest, issued w w' = r :: r :: rest)
  /\ (rejected_by_tool b = true ->
        exists message,
          getFlightsInZoneTool b w = (Throw (McpError InvalidParams message), w))
  /\ (rejected_by_tool b = false ->
        (getFlightsInZoneTool b w).2 = w').
Proof.
  intros r n w'. subst w'. rewrite getFlightsInZone_world.
  match goal with
  | |- context [issued w ?w'] =>
      assert (Hissued :
                issued w w' = replicate (S (retries r n (maxRetries (apiClient w)))) r)
  end.
  { rewrite <- (Nat.sub_0_r (maxRetries (apiClient w))).
    exact (makeRequest_issued ENDPOINTS.ZONES (req_params r) 0 w). }
  split; [|split; [|split; [|split]]].
  - exists (retries r n (maxRetries (apiClient w))). split; [|split; [|split]].
    + apply retries_le.
    + exact Hissued.
    + intros i Hi. exact (retries_429 r n _ i Hi).
    + intros Hlt.
      destruct (is_429 (upstream (n + retries r n (maxRetries (apiClient w))) r))
        eqn:Hlast; [|reflexivity].
      apply retries_used_up in Hlast. lia.
  - intros Hnot.
    rewrite (makeRequest_stop ENDPOINTS.ZONES _ 0 w) by (left; exact Hnot).
    unfold log; simpl. rewrite issued_extend. reflexivity.
  - intros H429 Hretry. rewrite Hissued.
    destruct (maxRetries (apiClient w)) as [|budget]; [lia|].
    change (retries r n (S budget))
      with (if is_429 (upstream n r) then S (retries r (S n) budget) else 0).
    rewrite H429. eexists; reflexivity.
  - apply getFlightsInZoneTool_rejects.
  - intros Hok. rewrite <- getFlightsInZone_world.
    now apply getFlightsInZoneTool_forwards.
Qed.

(** ** The callers of the client

    The remaining tools, the resource handlers and the resource routing of
    the server.  As for the tools above, what a handler makes of the
    records it got is a parameter that may throw; so are [parseFloat] and
    [decodeURIComponent], which throws on a malformed escape. *)
Variable render_flight_data : value -> Result value.
Variable render_airport_data : value -> Result value.
Variable render_airline_data : value -> Result value.
Variable render_aircraft_data : value -> Result value.
Variable render_flight_resource : value -> Result value.
Variable render_airport_resource : value -> Result value.
Variable render_airline_resource : value -> Result value.
Variable render_aircraft_resource : value -> Result value.
Variable render_zone_resource : Bounds -> value -> Result value.
Variable parseFloat : string -> float.
Variable decodeURIComponent : string -> Result string.

Definition getFlightDataTool (args : FlightDataArgs.t) : M value :=
  try_catch
    (let flight_iata := FlightDataArgs.flight_iata args in
     let flight_icao := FlightDataArgs.flight_icao args in
     if negb (truthy (of_opt JStr flight_iata))
        && negb (truthy (of_opt JStr flight_icao))
     then
       throw (McpError InvalidParams
                "Either flight_iata or flight_icao must be provided.")
     else
       let flightId := string_or flight_icao flight_iata in
       if negb (truthy (of_opt JStr flightId)) then
         throw (McpError InvalidParams "Flight identifier is missing or invalid.")
       else
         flightData <- getFlightData (default "" flightId) ;;
         lift (render_flight_data flightData))
    (rethrow "Error retrieving flight data: ").

Definition getAirportDataTool (code : string) : M value :=
  try_catch
    (if negb (truthy_string code)
        || (negb (String.length code =? 3) && negb (String.length code =? 4))
     then
       throw (McpError InvalidParams
         "Invalid airport code. Must be a 3-letter IATA code or 4-letter ICAO code.")
     else
       airportData <- getAirportData code ;;
       lift (render_airport_data airportData))
    (rethrow "Error retrieving airport data: ").

Definition getAirlineDataTool (code : string) : M value :=
  try_catch
    (if negb (truthy_string code)
        || (negb (String.length code =? 2) && negb (String.length code =? 3))
     then
       throw (McpError InvalidParams
         "Invalid airline code. Must be a 2-letter IATA code or 3-letter ICAO code.")
     else
       airlineData <- getAirlineData code ;;
       lift (render_airline_data airlineData))
    (rethrow "Error retrieving airline data: ").

Definition getAircraftDataTool (registration : string) : M value :=
  try_catch
    (if negb (truthy_string registration) || (String.length registration <? 2)
     then
       throw (McpError InvalidParams "Invalid aircraft registration number.")
     else
       aircraftData <- getAircraftData registration ;;
       lift (render_aircraft_data aircraftData))
    (rethrow "Error retrieving aircraft data: ").

Definition getFlightResource (uri : string) : M value :=
  try_catch
    (match match_scheme "flight" is_alnum uri with
     | None =>
         throw (McpError InvalidRequest ("Invalid flight resource URI: " +:+ uri))
     | Some flightId =>
         if negb (truthy_string flightId) || (String.length flightId <? 2) then
           throw (McpError InvalidParams "Invalid flight ID.")
         else
           flightData <- getFlightData flightId ;;
           lift (render_flight_resource flightData)
     end)
    (rethrow "Error retrieving flight resource: ").

Definition getAirportResource (uri : string) : M value :=
  try_catch
    (match match_scheme "airport" is_alnum uri with
     | None =>
         throw (McpError InvalidRequest ("Invalid airport resource URI: " +:+ uri))
     | Some airportCode =>
         if negb (truthy_string airportCode)
            || (negb (String.length airportCode =? 3)
                && negb (String.length airportCode =? 4))
         then
           throw (McpError InvalidParams
             "Invalid airport code. Must be a 3-letter IATA code or 4-letter ICAO code.")
         else
           airportData <- getAirportData airportCode ;;
           lift (render_airport_resource airportData)
     end)
    (rethrow "Error retrieving airport resource: ").

Definition getAirlineResource (uri : string) : M value :=
  try_catch
    (match match_scheme "airline" is_alnum uri with
     | None =>
         throw (McpError InvalidRequest ("Invalid airline resource URI: " +:+ uri))
     | Some airlineCode =>
         if negb (truthy_string airlineCode)
            || (negb (String.length airlineCode =? 2)
                && negb (String.length airlineCode =? 3))
         then
           throw (McpError InvalidParams
             "Invalid airline code. Must be a 2-letter IATA code or 3-letter ICAO code.")
         else
           airlineData <- getAirlineData airlineCode ;;
           lift (render_airline_resource airlineData)
     end)
    (rethrow "Error retrieving airline resource: ").

Definition getAircraftResource (uri : string) : M value :=
  try_catch
    (match match_scheme "aircraft" is_alnum_or_dash uri with
     | None =>
         throw (McpError InvalidRequest ("Invalid aircraft resource URI: " +:+ uri))
     | Some registration =>
         if negb (truthy_string registration) || (String.length registration <? 2)
         then
           throw (McpError InvalidParams "Invalid aircraft registration number.")
         else
           aircraftData <- getAircraftData registration ;;
           lift (render_aircraft_resource aircraftData)
     end)
    (rethrow "Error retrieving aircraft resource: ").

Definition getZoneResource (uri : string) : M value :=
  try_catch
    (match match_zone uri with
     | None =>
         throw (McpError InvalidRequest ("Invalid zone resource URI: " +:+ uri))
     | Some (m1, m2, m3, m4) =>
         d1 <- lift (decodeURIComponent m1) ;;
         let north := parseFloat d1 in
         d2 <- lift (decodeURIComponent m2) ;;
         let south := parseFloat d2 in
         d3 <- lift (decodeURIComponent m3) ;;
         let west := parseFloat d3 in
         d4 <- lift (decodeURIComponent m4) ;;
         let east := parseFloat d4 in
         if PrimFloat.is_nan north || PrimFloat.is_nan south
            || PrimFloat.is_nan west || PrimFloat.is_nan east
         then
           throw (McpError InvalidParams
                    "Invalid zone bounds. All bounds must be valid numbers.")
         else if PrimFloat.ltb north south then
           throw (McpError InvalidParams
             "Northern latitude must be greater than or equal to southern latitude.")
         else if PrimFloat.ltb east west then
           throw (McpError InvalidParams
             "Eastern longitude must be greater than or equal to western longitude.")
         else if PrimFloat.ltb 90 north || PrimFloat.ltb south (-90) then
           throw (McpError InvalidParams
             "Latitude must be between -90 and 90 degrees.")
         else if PrimFloat.ltb 180 east || PrimFloat.ltb west (-180) then
           throw (McpError InvalidParams
             "Longitude must be between -180 and 180 degrees.")
         else
           let bounds :=
             {| north := north; south := south; west := west; east := east |} in
           flights <- getFlightsInZone bounds ;;
           lift (render_zone_resource bounds flights)
     end)
    (rethrow "Error retrieving zone resource: ").

(** The body of the [ReadResourceRequestSchema] handler once it holds the
    client: the handler is chosen by the prefix of the address and its
    text is wrapped into the answer. *)
Definition readResource (uri : string) : M value :=
  content <-
    (if startsWith uri "flight://" then getFlightResource uri
     else if startsWith uri "airport://" then getAirportResource uri
     else if startsWith uri "airline://" then getAirlineResource uri
     else if startsWith uri "aircraft://" then getAircraftResource uri
     else if startsWith uri "zone://" then getZoneResource uri
     else throw (McpError InvalidRequest ("Unsupported resource URI: " +:+ uri))) ;;
  ret (JObj {[ "contents" :=
                 JArr [JObj {[ "uri" := JStr uri;
                               "mimeType" := JStr "application/json";
                               "text" := content ]}] ]}).

(** The whole handler: [getApiClient()] first, then the routing, on the
    client that the server holds. *)
Definition handleReadResource (FLIGHTRADAR24_API_KEY : option string)
    (uri : string) (s : ServerState) : Result value * ServerState :=
  match getApiClient FLIGHTRADAR24_API_KEY s with
  | (Throw e, s1) => (Throw e, s1)
  | (Return client, s1) =>
      let '(result, w') :=
        readResource uri {| apiClient := client; trace := server_trace s1 |} in
      (result, {| server_apiClient := Some (apiClient w'); server_trace := trace w' |})
  end.

(** *** Vocabulary for the further properties *)

(** The request each public method hands to the transport. *)
Definition request_of (op : Operation) : Request :=
  match op with
  | GetFlightData flightId =>
      {| req_endpoint := "/flight/info/" +:+ flightId; req_params := ∅ |}
  | SearchFlights params =>
      {| req_endpoint := "/flights"; req_params := FlightSearchParams.object params |}
  | GetAirportData airportCode =>
      {| req_endpoint := "/airports";
         req_params := if String.length airportCode =? 3
                       then {[ "iata" := JStr airportCode ]}
                       else {[ "icao" := JStr airportCode ]} |}
  | SearchAirports params =>
      {| req_endpoint := "/airports"; req_params := AirportSearchParams.object params |}
  | GetAirlineData airlineCode =>
      {| req_endpoint := "/airlines";
         req_params := if String.length airlineCode =? 2
                       then {[ "iata" := JStr airlineCode ]}
                       else {[ "icao" := JStr airlineCode ]} |}
  | GetAircraftData registration =>
      {| req_endpoint := "/aircraft/" +:+ registration; req_params := ∅ |}
  | GetFlightsInZone bounds => zone_request bounds
  end.

(** Where each public method looks for its records in the body. *)
Definition envelope_path (op : Operation) : list string :=
  match op with
  | GetFlightData _ => ["result"]
  | SearchFlights _ | GetFlightsInZone _ => ["result"; "response"; "flights"]
  | GetAirportData _ => ["result"; "response"; "airport"]
  | SearchAirports _ => ["result"; "response"; "airports"]
  | GetAirlineData _ => ["result"; "response"; "airline"]
  | GetAircraftData _ => ["result"; "response"; "aircraft"]
  end.

Definition total (delays : list Z) : Z := foldr Z.add 0%Z delays.

Definition is_McpError (e : exn) : Prop := exists code message, e = McpError code message.

(** *** The transport layer, continued *)

Lemma total_sleeps_backoff r delay retryCount k :
  total (sleeps (backoff r delay retryCount k)) =
  (delay * (2 ^ Z.of_nat (retryCount + k) - 2 ^ Z.of_nat retryCount))%Z.
Proof.
  revert retryCount; induction k as [|k IH]; intros retryCount; simpl.
  - rewrite Nat.add_0_r. lia.
  - unfold total in *. rewrite IH.
    replace (Z.of_nat (S retryCount + k)) with (Z.of_nat (retryCount + S k)) by lia.
    replace (Z.of_nat (S retryCount)) with (Z.succ (Z.of_nat retryCount)) by lia.
    rewrite Z.pow_succ_r by lia. lia.
Qed.

Lemma length_sleeps_backoff r delay retryCount k :
  length (sleeps (backoff r delay retryCount k)) = k.
Proof.
  revert retryCount; induction k as [|k IH]; intros retryCount; simpl; [reflexivity|].
  now rewrite IH.
Qed.

(** X1. One call of [makeRequest] issues one GET more than it sleeps, sleeps
    at most [maxRetries - retryCount] times, and the time it spends
    sleeping is [retryDelay * (2 ^ (retryCount + k) - 2 ^ retryCount)] for
    [k] sleeps.  With the policy of the constructor (1000 ms, 3 retries) a
    call from attempt count 0 issues at most 4 GETs and sleeps at most
    7000 ms in all. *)
Theorem backoff_is_bounded endpoint params retryCount w :
  let w' := (makeRequest endpoint params retryCount w).2 in
  let k := length (slept w w') in
  length (issued w w') = S k
  /\ k <= maxRetries (apiClient w) - retryCount
  /\ total (slept w w') =
      (retryDelay (apiClient w)
       * (2 ^ Z.of_nat (retryCount + k) - 2 ^ Z.of_nat retryCount))%Z
  /\ (retryDelay (apiClient w) = 1000%Z -> maxRetries (apiClient w) = 3 ->
      retryCount = 0 ->
      length (issued w w') <= 4 /\ (total (slept w w') <= 7000)%Z).
Proof.
  intros w' k.
  set (r := {| req_endpoint := endpoint; req_params := params |}).
  set (j := retries r (length (requests (trace w)))
              (maxRetries (apiClient w) - retryCount)).
  assert (Hslept : slept w w' = sleeps (backoff r (retryDelay (apiClient w)) retryCount j)).
  { subst w'. rewrite makeRequest_run; simpl.
    rewrite slept_extend, sleeps_app; simpl. now rewrite app_nil_r. }
  assert (Hk : k = j).
  { subst k. rewrite Hslept. apply length_sleeps_backoff. }
  assert (Hissued : length (issued w w') = S k).
  { subst w'. rewrite makeRequest_issued. fold r. fold j.
    rewrite length_replicate. now rewrite Hk. }
  assert (Hle : k <= maxRetries (apiClient w) - retryCount).
  { rewrite Hk. apply retries_le. }
  assert (Htotal : total (slept w w') =
                   (retryDelay (apiClient w)
                    * (2 ^ Z.of_nat (retryCount + k) - 2 ^ Z.of_nat retryCount))%Z).
  { rewrite Hslept, Hk. apply total_sleeps_backoff. }
  split; [exact Hissued|]. split; [exact Hle|]. split; [exact Htotal|].
  intros Hdelay Hmax ->. rewrite Hissued, Htotal, Hdelay. rewrite Hmax in Hle.
  split; [lia|].
  assert (Hpow : (2 ^ Z.of_nat (0 + k) <= 2 ^ 3)%Z)
    by (apply Z.pow_le_mono_r; lia).
  simpl (Z.of_nat 0). lia.
Qed.

(** X2. Whatever the upstream does, an exception out of [makeRequest] is one
    of four: the invalid-key error, after an answer with status 401; the
    API error built from the status and body of the last answer, whose
    status is not 401 and is 429 only when the retries are used up; the
    network error, after a GET without response; or the foreign exception
    of the GET itself, unchanged. *)
Theorem transport_error_taxonomy endpoint params retryCount w e :
  (makeRequest endpoint params retryCount w).1 = Throw e ->
  let r := {| req_endpoint := endpoint; req_params := params |} in
  let n := length (requests (trace w)) in
  exists k,
    issued w (makeRequest endpoint params retryCount w).2 = replicate (S k) r
    /\ ((exists status data,
           upstream (n + k) r = AxiosErrorResponse status data
           /\ PrimFloat.eqb status 401 = true
           /\ e = McpError InvalidRequest ERROR_MESSAGES.INVALID_API_KEY)
        \/ (exists status data,
             upstream (n + k) r = AxiosErrorResponse status data
             /\ PrimFloat.eqb status 401 = false
             /\ (PrimFloat.eqb status 429 = true ->
                 maxRetries (apiClient w) <= retryCount + k)
             /\ e = McpError InternalError
                      (ERROR_MESSAGES.API_ERROR +:+ ": " +:+ Number_toString status
                         +:+ " - " +:+ JSON_stringify data))
        \/ (upstream (n + k) r = AxiosErrorNoResponse
            /\ e = McpError InternalError ERROR_MESSAGES.NETWORK_ERROR)
        \/ (exists message,
             upstream (n + k) r = NonAxiosError message /\ e = OtherError message)).
Proof.
  intros Hthrow r n.
  set (k := retries r n (maxRetries (apiClient w) - retryCount)).
  exists k. split; [apply makeRequest_issued|].
  rewrite makeRequest_run in Hthrow; simpl in Hthrow.
  fold r in Hthrow. fold n in Hthrow. fold k in Hthrow.
  destruct (upstream (n + k) r) as [data|status data| |message] eqn:Hlast;
    simpl in Hthrow; [discriminate| | |].
  - unfold classify in Hthrow.
    destruct (PrimFloat.eqb status 401) eqn:H401.
    + left. exists status, data. split; [reflexivity|]. split; [exact H401|].
      congruence.
    + right; left. exists status, data. split; [reflexivity|]. split; [exact H401|].
      split; [|congruence].
      intros H429.
      assert (Hstop : is_429 (upstream (n + k) r) = true)
        by (rewrite Hlast; exact H429).
      pose proof (retries_le r n (maxRetries (apiClient w) - retryCount)) as Hle.
      fold k in Hle.
      pose proof (retries_used_up r n _ Hstop) as Hused. fold k in Hused. lia.
  - right; right; left. split; [reflexivity|congruence].
  - right; right; right. exists message. split; [reflexivity|congruence].
Qed.

(** *** The mapping layer, continued *)

Lemma run_world op w :
  (run op w).2 =
  (makeRequest (req_endpoint (request_of op)) (req_params (request_of op)) 0 w).2.
Proof.
  destruct op; simpl.
  - apply getFlightData_world.
  - apply searchFlights_world.
  - apply getAirportData_world.
  - apply searchAirports_world.
  - apply getAirlineData_world.
  - apply getAircraftData_world.
  - apply getFlightsInZone_world.
Qed.

(** X3. Each public method sends one fixed request, the one of the table
    [request_of]: every GET it causes is that request, there is at least
    one, and at most [maxRetries] more. *)
Theorem operations_send_one_fixed_request op w :
  exists k,
    k <= maxRetries (apiClient w)
    /\ issued w (run op w).2 = replicate (S k) (request_of op).
Proof.
  rewrite run_world.
  exists (retries (request_of op) (length (requests (trace w)))
            (maxRetries (apiClient w) - 0)).
  split.
  - pose proof (retries_le (request_of op) (length (requests (trace w)))
                  (maxRetries (apiClient w) - 0)). lia.
  - rewrite makeRequest_issued. now destruct (request_of op).
Qed.

Lemma bind_throw {A B} (m : M A) (k : A -> M B) w e w' :
  m w = (Throw e, w') -> bind m k w = (Throw e, w').
Proof. intros Hm. unfold bind. now rewrite Hm. Qed.

Lemma bind_return {A B} (m : M A) (k : A -> M B) w a w' :
  m w = (Return a, w') -> bind m k w = k a w'.
Proof. intros Hm. unfold bind. now rewrite Hm. Qed.

(** X4. A failure of the transport request comes out of every public
    method as it is: the same exception, the same world.  In particular a
    search does not turn a failed request into an empty result. *)
Theorem transport_failure_propagates op w e w' :
  makeRequest (req_endpoint (request_of op)) (req_params (request_of op)) 0 w
    = (Throw e, w') ->
  run op w = (Throw e, w').
Proof.
  intros Hreq. destruct op; simpl in *;
    [unfold getFlightData | unfold searchFlights | unfold getAirportData
    | unfold searchAirports | unfold getAirlineData | unfold getAircraftData
    | unfold getFlightsInZone];
    apply bind_throw; exact Hreq.
Qed.

(** X5. When the body has a truthy value at the envelope path of the
    method, the method returns exactly that value. *)
Theorem present_envelope_is_returned op w response w' :
  makeRequest (req_endpoint (request_of op)) (req_params (request_of op)) 0 w
    = (Return response, w') ->
  truthy (terminal (envelope_path op) response) = true ->
  run op w = (Return (terminal (envelope_path op) response), w').
Proof.
  intros Hreq Hpresent.
  destruct op; cbn [run request_of envelope_path req_endpoint req_params] in *;
    [unfold getFlightData | unfold searchFlights | unfold getAirportData
    | unfold searchAirports | unfold getAirlineData | unfold getAircraftData
    | unfold getFlightsInZone];
    (erewrite bind_return by exact Hreq);
    first [rewrite guard_3 | rewrite guard_1];
    rewrite Hpresent; reflexivity.
Qed.

(** *** The tools, continued *)

Lemma truthy_string_length s : truthy_string s = negb (String.length s =? 0).
Proof. destruct s; reflexivity. Qed.

Lemma guarded_rejects (c : bool) code message (m : M value) prefix w :
  c = true ->
  try_catch (if c then throw (McpError code message) else m) (rethrow prefix) w
  = (Throw (McpError code message), w).
Proof. intros ->. reflexivity. Qed.

Lemma getAirportData_requests code w r :
  r ∈ issued w (getAirportData code w).2 ->
  r = {| req_endpoint := "/airports";
         req_params := if String.length code =? 3
                       then {[ "iata" := JStr code ]}
                       else {[ "icao" := JStr code ]} |}.
Proof.
  rewrite getAirportData_world. intros Hr.
  now apply makeRequest_requests in Hr.
Qed.

Lemma getAirlineData_requests code w r :
  r ∈ issued w (getAirlineData code w).2 ->
  r = {| req_endpoint := "/airlines";
         req_params := if String.length code =? 2
                       then {[ "iata" := JStr code ]}
                       else {[ "icao" := JStr code ]} |}.
Proof.
  rewrite getAirlineData_world. intros Hr.
  now apply makeRequest_requests in Hr.
Qed.

Lemma getAircraftData_requests registration w r :
  r ∈ issued w (getAircraftData registration w).2 ->
  r = {| req_endpoint := "/aircraft/" +:+ registration; req_params := ∅ |}.
Proof.
  rewrite getAircraftData_world. intros Hr.
  now apply makeRequest_requests in Hr.
Qed.

Lemma getFlightData_requests flightId w r :
  r ∈ issued w (getFlightData flightId w).2 ->
  r = {| req_endpoint := "/flight/info/" +:+ flightId; req_params := ∅ |}.
Proof.
  rewrite getFlightData_world. intros Hr.
  now apply makeRequest_requests in Hr.
Qed.

Lemma not_issued w r : r ∈ issued w w -> False.
Proof. rewrite issued_refl. apply not_elem_of_nil. Qed.

Lemma truthy_string_nonempty s : truthy_string s = true -> s <> "".
Proof. intros Hs ->. discriminate Hs. Qed.

Lemma makeRequest_issues endpoint params retryCount w :
  issued w (makeRequest endpoint params retryCount w).2 <> [].
Proof. apply makeRequest_requests. Qed.

Lemma truthy_string_of_nonempty s : s <> "" -> truthy_string s = true.
Proof. destruct s; [congruence|reflexivity]. Qed.

Lemma truthy_string_of_length s : 0 < String.length s -> truthy_string s = true.
Proof. destruct s; simpl; [lia|reflexivity]. Qed.

Lemma guarded_passes (c : bool) code message (m : M value) prefix w :
  c = false ->
  try_catch (if c then throw (McpError code message) else m) (rethrow prefix) w
  = try_catch m (rethrow prefix) w.
Proof. intros ->. reflexivity. Qed.

(** A code of the right length reaches [getAirportData]. *)
Lemma getAirportDataTool_accepted code w :
  String.length code = 3 \/ String.length code = 4 ->
  getAirportDataTool code w =
  try_catch
    (airportData <- getAirportData code ;;
     lift (render_airport_data airportData))
    (rethrow "Error retrieving airport data: ") w.
Proof.
  intros Hlen. unfold getAirportDataTool. apply guarded_passes.
  rewrite truthy_string_of_length by lia.
  destruct Hlen as [-> | ->]; reflexivity.
Qed.

(** A code of the right length reaches [getAirlineData]. *)
Lemma getAirlineDataTool_accepted code w :
  String.length code = 2 \/ String.length code = 3 ->
  getAirlineDataTool code w =
  try_catch
    (airlineData <- getAirlineData code ;;
     lift (render_airline_data airlineData))
    (rethrow "Error retrieving airline data: ") w.
Proof.
  intros Hlen. unfold getAirlineDataTool. apply guarded_passes.
  rewrite truthy_string_of_length by lia.
  destruct Hlen as [-> | ->]; reflexivity.
Qed.

(** A registration of two characters or more reaches [getAircraftData]. *)
Lemma getAircraftDataTool_accepted registration w :
  2 <= String.length registration ->
  getAircraftDataTool registration w =
  try_catch
    (aircraftData <- getAircraftData registration ;;
     lift (render_aircraft_data aircraftData))
    (rethrow "Error retrieving aircraft data: ") w.
Proof.
  intros Hlen. unfold getAircraftDataTool. apply guarded_passes.
  rewrite truthy_string_of_length by lia.
  apply Nat.ltb_ge in Hlen. rewrite Hlen. reflexivity.
Qed.

(** X6. The three lookup tools check their argument before anything is
    sent, and look up every argument that passes.  An airport code whose
    length is neither 3 nor 4, an airline code whose length is neither 2
    nor 3, and a registration shorter than 2 are turned down with
    [InvalidParams] and no GET.  Every other argument is handed to the
    client method as it is, and at least one GET follows: [iata] for a
    code of length 3 (airport) or 2 (airline), [icao] for a code of
    length 4 (airport) or 3 (airline), and [/aircraft/] followed by the
    registration. *)
Theorem lookup_tools_check_their_argument (code : string) (w : World) :
  (String.length code <> 3 -> String.length code <> 4 ->
   getAirportDataTool code w =
   (Throw (McpError InvalidParams
      "Invalid airport code. Must be a 3-letter IATA code or 4-letter ICAO code."), w))
  /\ (forall r, r ∈ issued w (getAirportDataTool code w).2 ->
      r = {| req_endpoint := "/airports"; req_params := {[ "iata" := JStr code ]} |}
        /\ String.length code = 3
      \/ r = {| req_endpoint := "/airports"; req_params := {[ "icao" := JStr code ]} |}
        /\ String.length code = 4)
  /\ (String.length code <> 2 -> String.length code <> 3 ->
      getAirlineDataTool code w =
      (Throw (McpError InvalidParams
         "Invalid airline code. Must be a 2-letter IATA code or 3-letter ICAO code."), w))
  /\ (forall r, r ∈ issued w (getAirlineDataTool code w).2 ->
      r = {| req_endpoint := "/airlines"; req_params := {[ "iata" := JStr code ]} |}
        /\ String.length code = 2
      \/ r = {| req_endpoint := "/airlines"; req_params := {[ "icao" := JStr code ]} |}
        /\ String.length code = 3)
  /\ (String.length code < 2 ->
      getAircraftDataTool code w =
      (Throw (McpError InvalidParams "Invalid aircraft registration number."), w))
  /\ (forall r, r ∈ issued w (getAircraftDataTool code w).2 ->
      r = {| req_endpoint := "/aircraft/" +:+ code; req_params := ∅ |}
      /\ 2 <= String.length code)
  /\ (String.length code = 3 \/ String.length code = 4 ->
      getAirportDataTool code w =
        try_catch
          (airportData <- getAirportData code ;;
           lift (render_airport_data airportData))
          (rethrow "Error retrieving airport data: ") w
      /\ (getAirportDataTool code w).2 = (getAirportData code w).2
      /\ issued w (getAirportDataTool code w).2 <> [])
  /\ (String.length code = 2 \/ String.length code = 3 ->
      getAirlineDataTool code w =
        try_catch
          (airlineData <- getAirlineData code ;;
           lift (render_airline_data airlineData))
          (rethrow "Error retrieving airline data: ") w
      /\ (getAirlineDataTool code w).2 = (getAirlineData code w).2
      /\ issued w (getAirlineDataTool code w).2 <> [])
  /\ (2 <= String.length code ->
      getAircraftDataTool code w =
        try_catch
          (aircraftData <- getAircraftData code ;;
           lift (render_aircraft_data aircraftData))
          (rethrow "Error retrieving aircraft data: ") w
      /\ (getAircraftDataTool code w).2 = (getAircraftData code w).2
      /\ issued w (getAircraftDataTool code w).2 <> []).
Proof.
  split; [|split; [|split; [|split; [|split; [|split; [|split; [|split]]]]]]].
  - intros H3 H4. unfold getAirportDataTool. apply guarded_rejects.
    apply Nat.eqb_neq in H3, H4. rewrite H3, H4. apply orb_true_r.
  - intros r. unfold getAirportDataTool.
    destruct (negb (truthy_string code)
              || negb (String.length code =? 3) && negb (String.length code =? 4))
      eqn:Hc.
    + intros Hr. destruct (not_issued _ _ Hr).
    + rewrite try_catch_rethrow_world, rendered_world.
      intros Hr. apply getAirportData_requests in Hr. subst r.
      apply orb_false_elim in Hc as [_ Hc].
      destruct (Nat.eqb_spec (String.length code) 3) as [H3|H3]; [left; now split|].
      destruct (Nat.eqb_spec (String.length code) 4) as [H4|H4]; [right; now split|].
      discriminate Hc.
  - intros H2 H3. unfold getAirlineDataTool. apply guarded_rejects.
    apply Nat.eqb_neq in H2, H3. rewrite H2, H3. apply orb_true_r.
  - intros r. unfold getAirlineDataTool.
    destruct (negb (truthy_string code)
              || negb (String.length code =? 2) && negb (String.length code =? 3))
      eqn:Hc.
    + intros Hr. destruct (not_issued _ _ Hr).
    + rewrite try_catch_rethrow_world, rendered_world.
      intros Hr. apply getAirlineData_requests in Hr. subst r.
      apply orb_false_elim in Hc as [_ Hc].
      destruct (Nat.eqb_spec (String.length code) 2) as [H2|H2]; [left; now split|].
      destruct (Nat.eqb_spec (String.length code) 3) as [H3|H3]; [right; now split|].
      discriminate Hc.
  - intros Hshort. unfold getAircraftDataTool. apply guarded_rejects.
    apply Nat.ltb_lt in Hshort. rewrite Hshort. apply orb_true_r.
  - intros r. unfold getAircraftDataTool.
    destruct (negb (truthy_string code) || (String.length code <? 2)) eqn:Hc.
    + intros Hr. destruct (not_issued _ _ Hr).
    + rewrite try_catch_rethrow_world, rendered_world.
      intros Hr. apply getAircraftData_requests in Hr. split; [exact Hr|].
      apply orb_false_elim in Hc as [_ Hc]. apply Nat.ltb_ge in Hc. exact Hc.
  - intros Hlen.
    assert (Hw : (getAirportDataTool code w).2 = (getAirportData code w).2).
    { rewrite getAirportDataTool_accepted by assumption.
      rewrite try_catch_rethrow_world. apply rendered_world. }
    split; [now apply getAirportDataTool_accepted|]. split; [exact Hw|].
    rewrite Hw, getAirportData_world. apply makeRequest_issues.
  - intros Hlen.
    assert (Hw : (getAirlineDataTool code w).2 = (getAirlineData code w).2).
    { rewrite getAirlineDataTool_accepted by assumption.
      rewrite try_catch_rethrow_world. apply rendered_world. }
    split; [now apply getAirlineDataTool_accepted|]. split; [exact Hw|].
    rewrite Hw, getAirlineData_world. apply makeRequest_issues.
  - intros Hlen.
    assert (Hw : (getAircraftDataTool code w).2 = (getAircraftData code w).2).
    { rewrite getAircraftDataTool_accepted by assumption.
      rewrite try_catch_rethrow_world. apply rendered_world. }
    split; [now apply getAircraftDataTool_accepted|]. split; [exact Hw|].
    rewrite Hw, getAircraftData_world. apply makeRequest_issues.
Qed.

(** A non-empty [flight_icao] is the identifier looked up. *)
Lemma getFlightDataTool_icao args flightId w :
  FlightDataArgs.flight_icao args = Some flightId ->
  flightId <> "" ->
  getFlightDataTool args w =
  try_catch
    (flightData <- getFlightData flightId ;;
     lift (render_flight_data flightData))
    (rethrow "Error retrieving flight data: ") w.
Proof.
  destruct args as [iata icao]; simpl. intros -> Hne.
  apply truthy_string_of_nonempty in Hne.
  unfold getFlightDataTool, string_or; simpl.
  rewrite Hne, andb_false_r. simpl. rewrite Hne. reflexivity.
Qed.

(** Without one, a non-empty [flight_iata] is. *)
Lemma getFlightDataTool_iata args flightId w :
  truthy (of_opt JStr (FlightDataArgs.flight_icao args)) = false ->
  FlightDataArgs.flight_iata args = Some flightId ->
  flightId <> "" ->
  getFlightDataTool args w =
  try_catch
    (flightData <- getFlightData flightId ;;
     lift (render_flight_data flightData))
    (rethrow "Error retrieving flight data: ") w.
Proof.
  destruct args as [iata icao]; simpl. intros Hicao -> Hne.
  apply truthy_string_of_nonempty in Hne.
  unfold getFlightDataTool, string_or; simpl.
  rewrite Hicao, Hne. simpl. rewrite Hne. reflexivity.
Qed.

Lemma getFlightDataTool_looks_up flightId w :
  let m := try_catch
             (flightData <- getFlightData flightId ;;
              lift (render_flight_data flightData))
             (rethrow "Error retrieving flight data: ") in
  (m w).2 = (getFlightData flightId w).2
  /\ issued w (m w).2 <> [].
Proof.
  simpl.
  assert (Hw : (try_catch
                  (flightData <- getFlightData flightId ;;
                   lift (render_flight_data flightData))
                  (rethrow "Error retrieving flight data: ") w).2
               = (getFlightData flightId w).2).
  { rewrite try_catch_rethrow_world. apply rendered_world. }
  split; [exact Hw|].
  rewrite Hw, getFlightData_world. apply makeRequest_issues.
Qed.

(** X7. [getFlightDataTool] looks the flight up under [flight_icao] when
    that is a non-empty string and under [flight_iata] otherwise: in both
    cases the identifier is handed to [getFlightData] and at least one GET
    to [/flight/info/] followed by it is made; the identifier it sends is
    never empty.  When both are absent or empty it throws [InvalidParams]
    and sends nothing, and that is the only way for it to send nothing:
    the later test of the identifier never fires. *)
Theorem flight_tool_identifier (args : FlightDataArgs.t) (w : World) :
  let iata := FlightDataArgs.flight_iata args in
  let icao := FlightDataArgs.flight_icao args in
  let w' := (getFlightDataTool args w).2 in
  (truthy (of_opt JStr iata) = false -> truthy (of_opt JStr icao) = false ->
   getFlightDataTool args w =
   (Throw (McpError InvalidParams
             "Either flight_iata or flight_icao must be provided."), w))
  /\ (forall r, r ∈ issued w w' ->
      exists flightId,
        flightId <> ""
        /\ r = {| req_endpoint := "/flight/info/" +:+ flightId; req_params := ∅ |}
        /\ (truthy (of_opt JStr icao) = true -> icao = Some flightId)
        /\ (truthy (of_opt JStr icao) = false -> iata = Some flightId))
  /\ (issued w w' = [] ->
      getFlightDataTool args w =
      (Throw (McpError InvalidParams
                "Either flight_iata or flight_icao must be provided."), w))
  /\ (forall flightId,
      icao = Some flightId -> flightId <> "" ->
      getFlightDataTool args w =
        try_catch
          (flightData <- getFlightData flightId ;;
           lift (render_flight_data flightData))
          (rethrow "Error retrieving flight data: ") w
      /\ w' = (getFlightData flightId w).2
      /\ issued w w' <> [])
  /\ (forall flightId,
      truthy (of_opt JStr icao) = false ->
      iata = Some flightId -> flightId <> "" ->
      getFlightDataTool args w =
        try_catch
          (flightData <- getFlightData flightId ;;
           lift (render_flight_data flightData))
          (rethrow "Error retrieving flight data: ") w
      /\ w' = (getFlightData flightId w).2
      /\ issued w w' <> [])
  /\ (issued w w' = [] ->
      truthy (of_opt JStr iata) = false /\ truthy (of_opt JStr icao) = false).
Proof.
  intros iata icao w'.
  assert (Hsent :
            (truthy (of_opt JStr iata) = false -> truthy (of_opt JStr icao) = false ->
             getFlightDataTool args w =
             (Throw (McpError InvalidParams
                       "Either flight_iata or flight_icao must be provided."), w))
            /\ (forall r, r ∈ issued w w' ->
                exists flightId,
                  flightId <> ""
                  /\ r = {| req_endpoint := "/flight/info/" +:+ flightId;
                            req_params := ∅ |}
                  /\ (truthy (of_opt JStr icao) = true -> icao = Some flightId)
                  /\ (truthy (of_opt JStr icao) = false -> iata = Some flightId))
            /\ (issued w w' = [] ->
                getFlightDataTool args w =
                (Throw (McpError InvalidParams
                          "Either flight_iata or flight_icao must be provided."), w))).
  { subst iata icao w'. destruct args as [iata icao]; simpl.
    unfold getFlightDataTool, string_or; simpl.
    destruct icao as [ic|]; simpl;
      [destruct (truthy_string ic) eqn:Hic; simpl|];
      (destruct iata as [ia|]; simpl;
       [destruct (truthy_string ia) eqn:Hia; simpl|]);
      rewrite ?Hic, ?Hia; simpl;
      rewrite ?try_catch_rethrow_world, ?rendered_world;
      (split; [try discriminate; try reflexivity|split]);
      try (intros r Hr; destruct (not_issued _ _ Hr));
      try (intros r Hr; apply getFlightData_requests in Hr;
           eexists; split; [|split; [exact Hr|split; [try discriminate|try discriminate]]];
           [now apply truthy_string_nonempty| try reflexivity..]);
      try reflexivity;
      try (intros Hnone; rewrite getFlightData_world in Hnone;
           destruct (makeRequest_issues _ _ _ _ Hnone)). }
  destruct Hsent as (Hnone & Hall & Hnothing).
  assert (Hicao : forall flightId,
             icao = Some flightId -> flightId <> "" ->
             getFlightDataTool args w =
               try_catch
                 (flightData <- getFlightData flightId ;;
                  lift (render_flight_data flightData))
                 (rethrow "Error retrieving flight data: ") w
             /\ w' = (getFlightData flightId w).2
             /\ issued w w' <> []).
  { intros flightId Hid Hne. subst w'.
    rewrite (getFlightDataTool_icao args flightId w Hid Hne).
    split; [reflexivity|]. apply getFlightDataTool_looks_up. }
  assert (Hiata : forall flightId,
             truthy (of_opt JStr icao) = false ->
             iata = Some flightId -> flightId <> "" ->
             getFlightDataTool args w =
               try_catch
                 (flightData <- getFlightData flightId ;;
                  lift (render_flight_data flightData))
                 (rethrow "Error retrieving flight data: ") w
             /\ w' = (getFlightData flightId w).2
             /\ issued w w' <> []).
  { intros flightId Hno Hid Hne. subst w'.
    rewrite (getFlightDataTool_iata args flightId w Hno Hid Hne).
    split; [reflexivity|]. apply getFlightDataTool_looks_up. }
  split; [exact Hnone|]. split; [exact Hall|]. split; [exact Hnothing|].
  split; [exact Hicao|]. split; [exact Hiata|].
  intros Hempty.
  destruct (truthy (of_opt JStr icao)) eqn:Hti.
  - exfalso. subst icao. destruct (FlightDataArgs.flight_icao args) as [ic|] eqn:Hic;
      [|discriminate Hti].
    destruct (Hicao ic eq_refl (truthy_string_nonempty ic Hti)) as (_ & _ & Hsome).
    exact (Hsome Hempty).
  - split; [|reflexivity].
    destruct (truthy (of_opt JStr iata)) eqn:Hta; [|reflexivity].
    exfalso. subst iata. destruct (FlightDataArgs.flight_iata args) as [ia|] eqn:Hia;
      [|discriminate Hta].
    destruct (Hiata ia eq_refl eq_refl (truthy_string_nonempty ia Hta)) as (_ & _ & Hsome).
    exact (Hsome Hempty).
Qed.

Lemma try_catch_rethrow_McpError prefix (m : M value) w e :
  (try_catch m (rethrow prefix) w).1 = Throw e -> is_McpError e.
Proof.
  unfold try_catch. destruct (m w) as [[a|[code msg|msg]] w1]; simpl;
    intros He; [discriminate| |]; injection He as <-; eexists _, _; reflexivity.
Qed.

Lemma bind_ret_throw {A B} (m : M A) (f : A -> B) w e :
  (bind m (fun a => ret (f a)) w).1 = Throw e -> (m w).1 = Throw e.
Proof.
  unfold bind, ret. destruct (m w) as [[a|e'] w1]; simpl; intros He;
    [discriminate He|congruence].
Qed.

(** X8. Every tool, every resource handler and the resource routing throw
    nothing but [McpError]: whatever the client, the rendering or the
    decoding throws, the caller sees an [McpError]. *)
Theorem callers_throw_only_McpError (w : World) (e : exn) :
  (forall args, (getFlightDataTool args w).1 = Throw e -> is_McpError e)
  /\ (forall args, (searchFlightsTool args w).1 = Throw e -> is_McpError e)
  /\ (forall code, (getAirportDataTool code w).1 = Throw e -> is_McpError e)
  /\ (forall args, (searchAirportsTool args w).1 = Throw e -> is_McpError e)
  /\ (forall code, (getAirlineDataTool code w).1 = Throw e -> is_McpError e)
  /\ (forall registration,
        (getAircraftDataTool registration w).1 = Throw e -> is_McpError e)
  /\ (forall args, (getFlightsInZoneTool args w).1 = Throw e -> is_McpError e)
  /\ (forall uri, (getFlightResource uri w).1 = Throw e -> is_McpError e)
  /\ (forall uri, (getAirportResource uri w).1 = Throw e -> is_McpError e)
  /\ (forall uri, (getAirlineResource uri w).1 = Throw e -> is_McpError e)
  /\ (forall uri, (getAircraftResource uri w).1 = Throw e -> is_McpError e)
  /\ (forall uri, (getZoneResource uri w).1 = Throw e -> is_McpError e)
  /\ (forall uri, (readResource uri w).1 = Throw e -> is_McpError e).
Proof.
  repeat match goal with |- _ /\ _ => split end;
    try (intros x; apply try_catch_rethrow_McpError).
  intros uri. unfold readResource. intros He. apply bind_ret_throw in He.
  revert He.
  repeat match goal with
         | |- context [if ?c then _ else _] => destruct c
         end;
    try apply try_catch_rethrow_McpError.
  simpl. intros He. injection He as <-. eexists _, _; reflexivity.
Qed.

Lemma FlightSearchParams_bounds_sent args l b :
  FlightSearchParams.bounds args = Some b ->
  FlightSearchParams.object (FlightSearchParams.with_limit args l) !! "bounds"
  = Some (Bounds_object b).
Proof.
  intros Hb.
  unfold FlightSearchParams.object, FlightSearchParams.with_limit; simpl.
  rewrite Hb.
  destruct (FlightSearchParams.airline_iata args),
           (FlightSearchParams.airline_icao args),
           (FlightSearchParams.flight_number args),
           (FlightSearchParams.flight_iata args),
           (FlightSearchParams.flight_icao args),
           (FlightSearchParams.registration args); simpl;
    repeat (rewrite lookup_insert_ne by done); apply lookup_insert_eq.
Qed.

(** X9. The search tools want a criterion, and a limit is none: with no
    truthy search field (and, for flights, no bounds) they throw
    [InvalidParams] and send nothing, whatever the limit.  Bounds given to
    [searchFlightsTool] are checked for their order only: inverted bounds
    are turned down without a GET, and any other bounds, in range or not,
    are sent as they are. *)
Theorem search_tools_need_a_criterion :
  (forall args w,
      truthy (of_opt JStr (FlightSearchParams.airline_iata args)) = false ->
      truthy (of_opt JStr (FlightSearchParams.airline_icao args)) = false ->
      truthy (of_opt JStr (FlightSearchParams.flight_number args)) = false ->
      truthy (of_opt JStr (FlightSearchParams.flight_iata args)) = false ->
      truthy (of_opt JStr (FlightSearchParams.flight_icao args)) = false ->
      truthy (of_opt JStr (FlightSearchParams.registration args)) = false ->
      FlightSearchParams.bounds args = None ->
      searchFlightsTool args w =
      (Throw (McpError InvalidParams
                "At least one search parameter must be provided."), w))
  /\ (forall args b w,
      FlightSearchParams.bounds args = Some b ->
      (PrimFloat.ltb (north b) (south b) = true ->
       searchFlightsTool args w =
       (Throw (McpError InvalidParams
          "Northern latitude must be greater than or equal to southern latitude."), w))
      /\ (PrimFloat.ltb (north b) (south b) = false ->
          PrimFloat.ltb (east b) (west b) = true ->
          searchFlightsTool args w =
          (Throw (McpError InvalidParams
             "Eastern longitude must be greater than or equal to western longitude."), w))
      /\ (PrimFloat.ltb (north b) (south b) = false ->
          PrimFloat.ltb (east b) (west b) = false ->
          issued w (searchFlightsTool args w).2 <> []
          /\ forall r, r ∈ issued w (searchFlightsTool args w).2 ->
               req_endpoint r = "/flights"
               /\ req_params r !! "bounds" = Some (Bounds_object b)))
  /\ (forall args w,
      truthy (of_opt JStr (AirportSearchParams.name args)) = false ->
      truthy (of_opt JStr (AirportSearchParams.country args)) = false ->
      truthy (of_opt JStr (AirportSearchParams.iata args)) = false ->
      truthy (of_opt JStr (AirportSearchParams.icao args)) = false ->
      searchAirportsTool args w =
      (Throw (McpError InvalidParams
                "At least one search parameter must be provided."), w)).
Proof.
  split; [|split].
  - intros args w H1 H2 H3 H4 H5 H6 Hb. unfold searchFlightsTool.
    rewrite H1, H2, H3, H4, H5, H6, Hb. reflexivity.
  - intros args b w Hb.
    assert (Hshape :
               searchFlightsTool args w =
               try_catch
                 (_ <- (if PrimFloat.ltb (north b) (south b) then
                          throw (McpError InvalidParams
                            "Northern latitude must be greater than or equal to southern latitude.")
                        else if PrimFloat.ltb (east b) (west b) then
                          throw (McpError InvalidParams
                            "Eastern longitude must be greater than or equal to western longitude.")
                        else ret tt) ;;
                  flights <- searchFlights
                               (FlightSearchParams.with_limit args
                                  (limit_or (FlightSearchParams.limit args) 10)) ;;
                  lift (render_search_flights
                          (FlightSearchParams.with_limit args
                             (limit_or (FlightSearchParams.limit args) 10)) flights))
                 (rethrow "Error searching for flights: ") w).
    { unfold searchFlightsTool. rewrite Hb. simpl.
      rewrite !andb_false_r. reflexivity. }
    rewrite Hshape. clear Hshape.
    split; [|split].
    + intros ->. reflexivity.
    + intros -> ->. reflexivity.
    + intros -> ->. rewrite try_catch_rethrow_world.
      assert (Hw : (bind (ret tt)
                      (fun _ =>
                         flights <- searchFlights
                                      (FlightSearchParams.with_limit args
                                         (limit_or (FlightSearchParams.limit args) 10)) ;;
                         lift (render_search_flights
                                 (FlightSearchParams.with_limit args
                                    (limit_or (FlightSearchParams.limit args) 10))
                                 flights)) w).2
                   = (makeRequest ENDPOINTS.FLIGHT_DATA
                        (FlightSearchParams.object
                           (FlightSearchParams.with_limit args
                              (limit_or (FlightSearchParams.limit args) 10))) 0 w).2).
      { unfold bind at 1, ret.
        rewrite (bind_pure_world _ _ w) by reflexivity.
        apply searchFlights_world. }
      rewrite Hw. split; [apply makeRequest_issues|].
      intros r Hr. apply makeRequest_requests in Hr. subst r; simpl.
      split; [reflexivity|]. now apply FlightSearchParams_bounds_sent.
  - intros args w H1 H2 H3 H4. unfold searchAirportsTool.
    rewrite H1, H2, H3, H4. reflexivity.
Qed.

(** *** Resource addresses *)

Lemma append_cons (x : Ascii.ascii) (a b : string) :
  String x a +:+ b = String x (a +:+ b).
Proof. reflexivity. Qed.

Lemma append_assoc (a b c : string) : (a +:+ b) +:+ c = a +:+ (b +:+ c).
Proof.
  induction a as [|x a IH]; [reflexivity|].
  now rewrite !append_cons, IH.
Qed.

Lemma strip_prefix_app p s : strip_prefix p (p +:+ s) = Some s.
Proof.
  induction p as [|a p IH]; [reflexivity|].
  rewrite append_cons; simpl. now rewrite Ascii.eqb_refl.
Qed.

Lemma strip_prefix_Some p s rest : strip_prefix p s = Some rest -> s = p +:+ rest.
Proof.
  revert s; induction p as [|a p IH]; intros s; simpl.
  - now intros [= ->].
  - destruct s as [|b s]; [discriminate|].
    destruct (Ascii.eqb_spec a b) as [->|]; [|discriminate].
    intros Hrest. now rewrite (IH s Hrest).
Qed.

Lemma match_scheme_Some scheme class uri id :
  match_scheme scheme class uri = Some id ->
  uri = scheme +:+ "://" +:+ id /\ id <> "" /\ all_chars class id = true.
Proof.
  unfold match_scheme.
  destruct (strip_prefix (scheme +:+ "://") uri) as [rest|] eqn:Hstrip; [|discriminate].
  destruct (negb (String.eqb rest "") && all_chars class rest) eqn:Hok; [|discriminate].
  intros [= <-]. apply andb_true_iff in Hok as [Hne Hall].
  apply strip_prefix_Some in Hstrip. rewrite append_assoc in Hstrip.
  split; [exact Hstrip|]. split; [|exact Hall].
  intros ->. discriminate Hne.
Qed.

Lemma match_scheme_build scheme class id :
  id <> "" -> all_chars class id = true ->
  match_scheme scheme class (scheme +:+ "://" +:+ id) = Some id.
Proof.
  intros Hne Hall. unfold match_scheme.
  rewrite <- append_assoc, strip_prefix_app, Hall.
  apply String.eqb_neq in Hne. now rewrite Hne.
Qed.

(** X10. The address pattern [scheme://id] is matched exactly: an address
    matches with captured group [id] if and only if it is the scheme,
    [://] and [id], where [id] is not empty and made of characters of the
    class.  So an address built from a valid [id] is read back as that
    [id], and nothing else is accepted. *)
Theorem match_scheme_exact scheme class uri id :
  match_scheme scheme class uri = Some id <->
  uri = scheme +:+ "://" +:+ id /\ id <> "" /\ all_chars class id = true.
Proof.
  split.
  - apply match_scheme_Some.
  - intros (-> & Hne & Hall). now apply match_scheme_build.
Qed.

Lemma segments_no_slash s :
  all_chars not_slash s = true -> segments s = [s].
Proof.
  induction s as [|c s IH]; simpl; [reflexivity|].
  unfold not_slash at 1. intros Hall. apply andb_true_iff in Hall as [Hc Hs].
  apply negb_true_iff in Hc. rewrite Hc, (IH Hs). reflexivity.
Qed.

Lemma segments_app a s :
  all_chars not_slash a = true ->
  segments (a +:+ String slash s) = a :: segments s.
Proof.
  induction a as [|c a IH].
  - intros _. reflexivity.
  - rewrite append_cons; simpl.
    unfold not_slash at 1. intros Hall. apply andb_true_iff in Hall as [Hc Ha].
    apply negb_true_iff in Hc. rewrite Hc, (IH Ha). reflexivity.
Qed.

Lemma segments_nonempty s : segments s <> [].
Proof.
  destruct s as [|c s]; simpl; [discriminate|].
  destruct (Ascii.eqb c slash); [discriminate|].
  destruct (segments s); discriminate.
Qed.

Lemma segments_pieces s :
  Forall (fun piece => all_chars not_slash piece = true) (segments s)
  /\ String.concat (String slash EmptyString) (segments s) = s.
Proof.
  induction s as [|c s IH]; simpl.
  - split; [repeat constructor|reflexivity].
  - destruct IH as [IHall IHcat].
    pose proof (segments_nonempty s) as Hne.
    destruct (segments s) as [|piece rest]; [congruence|].
    destruct (Ascii.eqb_spec c slash) as [->|Hc].
    + split; [constructor; [reflexivity|exact IHall]|].
      cbn [String.concat]. rewrite <- IHcat. reflexivity.
    + inversion IHall as [|? ? Hpiece Hrest]; subst.
      split.
      * constructor; [|exact Hrest]. simpl. unfold not_slash at 1.
        apply Ascii.eqb_neq in Hc. now rewrite Hc, Hpiece.
      * destruct rest as [|next rest]; cbn [String.concat] in *.
        -- reflexivity.
        -- now rewrite append_cons.
Qed.

Lemma match_zone_Some uri m1 m2 m3 m4 :
  match_zone uri = Some (m1, m2, m3, m4) ->
  uri = "zone://" +:+ m1 +:+ "/" +:+ m2 +:+ "/" +:+ m3 +:+ "/" +:+ m4
  /\ (m1 <> "" /\ m2 <> "" /\ m3 <> "" /\ m4 <> "")
  /\ (all_chars not_slash m1 = true /\ all_chars not_slash m2 = true
      /\ all_chars not_slash m3 = true /\ all_chars not_slash m4 = true).
Proof.
  unfold match_zone.
  destruct (strip_prefix "zone://" uri) as [rest|] eqn:Hstrip; [|discriminate].
  destruct (segments_pieces rest) as [Hall Hcat].
  destruct (segments rest) as [|a [|b [|c [|d [|x l]]]]]; try discriminate.
  destruct (negb (String.eqb a "") && negb (String.eqb b "")
            && negb (String.eqb c "") && negb (String.eqb d "")) eqn:Hne;
    [|discriminate].
  intros [= <- <- <- <-].
  apply strip_prefix_Some in Hstrip. subst uri.
  apply andb_true_iff in Hne as [Hne Hd].
  apply andb_true_iff in Hne as [Hne Hc].
  apply andb_true_iff in Hne as [Ha Hb].
  apply negb_true_iff, String.eqb_neq in Ha, Hb, Hc, Hd.
  inversion Hall as [|? ? Ha' Hall1]; subst.
  inversion Hall1 as [|? ? Hb' Hall2]; subst.
  inversion Hall2 as [|? ? Hc' Hall3]; subst.
  inversion Hall3 as [|? ? Hd' _]; subst.
  split; [reflexivity|]. split; repeat split; assumption.
Qed.

Lemma slash_append s : "/" +:+ s = String slash s.
Proof. reflexivity. Qed.

Lemma match_zone_build m1 m2 m3 m4 :
  m1 <> "" -> m2 <> "" -> m3 <> "" -> m4 <> "" ->
  all_chars not_slash m1 = true -> all_chars not_slash m2 = true ->
  all_chars not_slash m3 = true -> all_chars not_slash m4 = true ->
  match_zone ("zone://" +:+ m1 +:+ "/" +:+ m2 +:+ "/" +:+ m3 +:+ "/" +:+ m4)
  = Some (m1, m2, m3, m4).
Proof.
  intros H1 H2 H3 H4 S1 S2 S3 S4. unfold match_zone.
  rewrite strip_prefix_app, !slash_append.
  rewrite (segments_app m1 _ S1), (segments_app m2 _ S2), (segments_app m3 _ S3),
    (segments_no_slash m4 S4).
  apply String.eqb_neq in H1, H2, H3, H4. now rewrite H1, H2, H3, H4.
Qed.

(** X11. The zone address pattern is matched exactly: an address matches
    with groups [m1], [m2], [m3], [m4] if and only if it is [zone://]
    followed by the four groups with single slashes between them, each
    group non-empty and free of slashes. *)
Theorem match_zone_exact uri m1 m2 m3 m4 :
  match_zone uri = Some (m1, m2, m3, m4) <->
  uri = "zone://" +:+ m1 +:+ "/" +:+ m2 +:+ "/" +:+ m3 +:+ "/" +:+ m4
  /\ (m1 <> "" /\ m2 <> "" /\ m3 <> "" /\ m4 <> "")
  /\ (all_chars not_slash m1 = true /\ all_chars not_slash m2 = true
      /\ all_chars not_slash m3 = true /\ all_chars not_slash m4 = true).
Proof.
  split.
  - apply match_zone_Some.
  - intros (-> & (H1 & H2 & H3 & H4) & (S1 & S2 & S3 & S4)).
    now apply match_zone_build.
Qed.

(** *** The resource handlers *)

(** X12. What a resource handler sends is built from a checked address.
    Every GET of the flight handler goes to [/flight/info/id] where the
    address is [flight://id] and [id] is alphanumeric and at least 2 long;
    likewise [/aircraft/id] with letters, digits and dashes; the airport
    and airline handlers send an alphanumeric code as [iata] or [icao]
    by its length.  No slash or other separator can reach the path. *)
Theorem resource_requests_are_checked (uri : string) (w : World) (r : Request) :
  (r ∈ issued w (getFlightResource uri w).2 ->
   exists id,
     uri = "flight://" +:+ id /\ all_chars is_alnum id = true
     /\ 2 <= String.length id
     /\ r = {| req_endpoint := "/flight/info/" +:+ id; req_params := ∅ |})
  /\ (r ∈ issued w (getAircraftResource uri w).2 ->
      exists id,
        uri = "aircraft://" +:+ id /\ all_chars is_alnum_or_dash id = true
        /\ 2 <= String.length id
        /\ r = {| req_endpoint := "/aircraft/" +:+ id; req_params := ∅ |})
  /\ (r ∈ issued w (getAirportResource uri w).2 ->
      exists code,
        uri = "airport://" +:+ code /\ all_chars is_alnum code = true
        /\ (r = {| req_endpoint := "/airports";
                   req_params := {[ "iata" := JStr code ]} |}
            /\ String.length code = 3
            \/ r = {| req_endpoint := "/airports";
                      req_params := {[ "icao" := JStr code ]} |}
              /\ String.length code = 4))
  /\ (r ∈ issued w (getAirlineResource uri w).2 ->
      exists code,
        uri = "airline://" +:+ code /\ all_chars is_alnum code = true
        /\ (r = {| req_endpoint := "/airlines";
                   req_params := {[ "iata" := JStr code ]} |}
            /\ String.length code = 2
            \/ r = {| req_endpoint := "/airlines";
                      req_params := {[ "icao" := JStr code ]} |}
              /\ String.length code = 3)).
Proof.
  split; [|split; [|split]].
  - unfold getFlightResource.
    destruct (match_scheme "flight" is_alnum uri) as [id|] eqn:Hmatch;
      [|intros Hr; destruct (not_issued _ _ Hr)].
    apply match_scheme_Some in Hmatch as (Huri & _ & Hclass).
    destruct (negb (truthy_string id) || (String.length id <? 2)) eqn:Hc;
      [intros Hr; destruct (not_issued _ _ Hr)|].
    rewrite try_catch_rethrow_world, rendered_world.
    intros Hr. apply getFlightData_requests in Hr.
    apply orb_false_elim in Hc as [_ Hc]. apply Nat.ltb_ge in Hc.
    exists id. repeat split; assumption.
  - unfold getAircraftResource.
    destruct (match_scheme "aircraft" is_alnum_or_dash uri) as [id|] eqn:Hmatch;
      [|intros Hr; destruct (not_issued _ _ Hr)].
    apply match_scheme_Some in Hmatch as (Huri & _ & Hclass).
    destruct (negb (truthy_string id) || (String.length id <? 2)) eqn:Hc;
      [intros Hr; destruct (not_issued _ _ Hr)|].
    rewrite try_catch_rethrow_world, rendered_world.
    intros Hr. apply getAircraftData_requests in Hr.
    apply orb_false_elim in Hc as [_ Hc]. apply Nat.ltb_ge in Hc.
    exists id. repeat split; assumption.
  - unfold getAirportResource.
    destruct (match_scheme "airport" is_alnum uri) as [code|] eqn:Hmatch;
      [|intros Hr; destruct (not_issued _ _ Hr)].
    apply match_scheme_Some in Hmatch as (Huri & _ & Hclass).
    destruct (negb (truthy_string code)
              || negb (String.length code =? 3) && negb (String.length code =? 4))
      eqn:Hc; [intros Hr; destruct (not_issued _ _ Hr)|].
    rewrite try_catch_rethrow_world, rendered_world.
    intros Hr. apply getAirportData_requests in Hr. subst r.
    apply orb_false_elim in Hc as [_ Hc].
    exists code. split; [exact Huri|]. split; [exact Hclass|].
    destruct (Nat.eqb_spec (String.length code) 3) as [H3|H3]; [left; now split|].
    destruct (Nat.eqb_spec (String.length code) 4) as [H4|H4]; [right; now split|].
    discriminate Hc.
  - unfold getAirlineResource.
    destruct (match_scheme "airline" is_alnum uri) as [code|] eqn:Hmatch;
      [|intros Hr; destruct (not_issued _ _ Hr)].
    apply match_scheme_Some in Hmatch as (Huri & _ & Hclass).
    destruct (negb (truthy_string code)
              || negb (String.length code =? 2) && negb (String.length code =? 3))
      eqn:Hc; [intros Hr; destruct (not_issued _ _ Hr)|].
    rewrite try_catch_rethrow_world, rendered_world.
    intros Hr. apply getAirlineData_requests in Hr. subst r.
    apply orb_false_elim in Hc as [_ Hc].
    exists code. split; [exact Huri|]. split; [exact Hclass|].
    destruct (Nat.eqb_spec (String.length code) 2) as [H2|H2]; [left; now split|].
    destruct (Nat.eqb_spec (String.length code) 3) as [H3|H3]; [right; now split|].
    discriminate Hc.
Qed.

(** X13. Every GET of the zone handler is the zone request of bounds that
    were decoded and parsed from the four groups of the address, none of
    which is [NaN], and that pass every check of the zone tool: not
    inverted and within the ranges of latitude and longitude. *)
Theorem zone_resource_sends_checked_bounds (uri : string) (w : World) (r : Request) :
  r ∈ issued w (getZoneResource uri w).2 ->
  exists m1 m2 m3 m4 d1 d2 d3 d4,
    match_zone uri = Some (m1, m2, m3, m4)
    /\ decodeURIComponent m1 = Return d1 /\ decodeURIComponent m2 = Return d2
    /\ decodeURIComponent m3 = Return d3 /\ decodeURIComponent m4 = Return d4
    /\ let b := {| north := parseFloat d1; south := parseFloat d2;
                   west := parseFloat d3; east := parseFloat d4 |} in
       r = zone_request b
       /\ PrimFloat.is_nan (north b) = false /\ PrimFloat.is_nan (south b) = false
       /\ PrimFloat.is_nan (west b) = false /\ PrimFloat.is_nan (east b) = false
       /\ rejected_by_tool b = false.
Proof.
  unfold getZoneResource. rewrite try_catch_rethrow_world.
  destruct (match_zone uri) as [[[[m1 m2] m3] m4]|] eqn:Hmatch;
    [|intros Hr; destruct (not_issued _ _ Hr)].
  unfold bind at 1, lift at 1.
  destruct (decodeURIComponent m1) as [d1|e1] eqn:H1;
    [|intros Hr; destruct (not_issued _ _ Hr)].
  unfold bind at 1, lift at 1.
  destruct (decodeURIComponent m2) as [d2|e2] eqn:H2;
    [|intros Hr; destruct (not_issued _ _ Hr)].
  unfold bind at 1, lift at 1.
  destruct (decodeURIComponent m3) as [d3|e3] eqn:H3;
    [|intros Hr; destruct (not_issued _ _ Hr)].
  unfold bind at 1, lift at 1.
  destruct (decodeURIComponent m4) as [d4|e4] eqn:H4;
    [|intros Hr; destruct (not_issued _ _ Hr)].
  destruct (PrimFloat.is_nan (parseFloat d1) || PrimFloat.is_nan (parseFloat d2)
            || PrimFloat.is_nan (parseFloat d3) || PrimFloat.is_nan (parseFloat d4))
    eqn:Hnan; [intros Hr; destruct (not_issued _ _ Hr)|].
  destruct (PrimFloat.ltb (parseFloat d1) (parseFloat d2)) eqn:Hns;
    [intros Hr; destruct (not_issued _ _ Hr)|].
  destruct (PrimFloat.ltb (parseFloat d4) (parseFloat d3)) eqn:Hew;
    [intros Hr; destruct (not_issued _ _ Hr)|].
  destruct (PrimFloat.ltb 90 (parseFloat d1) || PrimFloat.ltb (parseFloat d2) (-90))
    eqn:Hlat; [intros Hr; destruct (not_issued _ _ Hr)|].
  destruct (PrimFloat.ltb 180 (parseFloat d4) || PrimFloat.ltb (parseFloat d3) (-180))
    eqn:Hlng; [intros Hr; destruct (not_issued _ _ Hr)|].
  rewrite rendered_world, getFlightsInZone_world.
  intros Hr. apply makeRequest_requests in Hr.
  exists m1, m2, m3, m4, d1, d2, d3, d4.
  do 5 (split; [first [assumption|reflexivity]|]).
  apply orb_false_elim in Hnan as [Hnan Hn4].
  apply orb_false_elim in Hnan as [Hnan Hn3].
  apply orb_false_elim in Hnan as [Hn1 Hn2].
  cbv zeta. split; [subst r; reflexivity|].
  cbn [north south west east].
  split; [exact Hn1|]. split; [exact Hn2|]. split; [exact Hn3|]. split; [exact Hn4|].
  unfold rejected_by_tool; cbn [north south west east].
  now rewrite Hns, Hew, Hlat, Hlng.
Qed.

(** *** The server *)

(** The answer of the server around the text of a handler. *)
Definition contents_of (uri : string) (content : value) : value :=
  JObj {[ "contents" :=
            JArr [JObj {[ "uri" := JStr uri;
                          "mimeType" := JStr "application/json";
                          "text" := content ]}] ]}.

(** X14. The routing by prefix agrees with the handlers: an address that
    the pattern of a handler matches is always served by that handler (no
    earlier prefix takes it away), and its text comes back wrapped with the
    address.  An address with none of the five prefixes is refused with
    [InvalidRequest] and nothing is sent. *)
Theorem resource_routing (uri : string) (w : World) :
  (match_scheme "flight" is_alnum uri <> None ->
   readResource uri w =
   (content <- getFlightResource uri ;; ret (contents_of uri content)) w)
  /\ (match_scheme "airport" is_alnum uri <> None ->
      readResource uri w =
      (content <- getAirportResource uri ;; ret (contents_of uri content)) w)
  /\ (match_scheme "airline" is_alnum uri <> None ->
      readResource uri w =
      (content <- getAirlineResource uri ;; ret (contents_of uri content)) w)
  /\ (match_scheme "aircraft" is_alnum_or_dash uri <> None ->
      readResource uri w =
      (content <- getAircraftResource uri ;; ret (contents_of uri content)) w)
  /\ (match_zone uri <> None ->
      readResource uri w =
      (content <- getZoneResource uri ;; ret (contents_of uri content)) w)
  /\ (startsWith uri "flight://" = false -> startsWith uri "airport://" = false ->
      startsWith uri "airline://" = false -> startsWith uri "aircraft://" = false ->
      startsWith uri "zone://" = false ->
      readResource uri w =
      (Throw (McpError InvalidRequest ("Unsupported resource URI: " +:+ uri)), w)).
Proof.
  split; [|split; [|split; [|split; [|split]]]].
  - destruct (match_scheme "flight" is_alnum uri) as [id|] eqn:Hmatch; [|congruence].
    intros _. apply match_scheme_Some in Hmatch as (-> & _ & _).
    unfold readResource.
    change (startsWith ("flight" +:+ "://" +:+ id) "flight://") with true.
    reflexivity.
  - destruct (match_scheme "airport" is_alnum uri) as [id|] eqn:Hmatch; [|congruence].
    intros _. apply match_scheme_Some in Hmatch as (-> & _ & _).
    unfold readResource.
    change (startsWith ("airport" +:+ "://" +:+ id) "flight://") with false.
    change (startsWith ("airport" +:+ "://" +:+ id) "airport://") with true.
    reflexivity.
  - destruct (match_scheme "airline" is_alnum uri) as [id|] eqn:Hmatch; [|congruence].
    intros _. apply match_scheme_Some in Hmatch as (-> & _ & _).
    unfold readResource.
    change (startsWith ("airline" +:+ "://" +:+ id) "flight://") with false.
    change (startsWith ("airline" +:+ "://" +:+ id) "airport://") with false.
    change (startsWith ("airline" +:+ "://" +:+ id) "airline://") with true.
    reflexivity.
  - destruct (match_scheme "aircraft" is_alnum_or_dash uri) as [id|] eqn:Hmatch;
      [|congruence].
    intros _. apply match_scheme_Some in Hmatch as (-> & _ & _).
    unfold readResource.
    change (startsWith ("aircraft" +:+ "://" +:+ id) "flight://") with false.
    change (startsWith ("aircraft" +:+ "://" +:+ id) "airport://") with false.
    change (startsWith ("aircraft" +:+ "://" +:+ id) "airline://") with false.
    change (startsWith ("aircraft" +:+ "://" +:+ id) "aircraft://") with true.
    reflexivity.
  - destruct (match_zone uri) as [[[[m1 m2] m3] m4]|] eqn:Hmatch; [|congruence].
    intros _. unfold readResource, match_zone in *.
    destruct (strip_prefix "zone://" uri) as [rest|] eqn:Hstrip; [|discriminate].
    apply strip_prefix_Some in Hstrip. subst uri.
    change (startsWith ("zone://" +:+ rest) "flight://") with false.
    change (startsWith ("zone://" +:+ rest) "airport://") with false.
    change (startsWith ("zone://" +:+ rest) "airline://") with false.
    change (startsWith ("zone://" +:+ rest) "aircraft://") with false.
    change (startsWith ("zone://" +:+ rest) "zone://") with true.
    reflexivity.
  - intros H1 H2 H3 H4 H5. unfold readResource.
    rewrite H1, H2, H3, H4, H5. reflexivity.
Qed.

Lemma resource_world (body : M value) prefix w :
  (body w).2 = w \/ (exists op, (body w).2 = (run op w).2) ->
  (try_catch body (rethrow prefix) w).2 = w
  \/ (exists op, (try_catch body (rethrow prefix) w).2 = (run op w).2).
Proof. now rewrite try_catch_rethrow_world. Qed.

(** A resource read changes the world as one public method does, or not
    at all. *)
Lemma readResource_world uri w :
  (readResource uri w).2 = w
  \/ (exists op, (readResource uri w).2 = (run op w).2).
Proof.
  unfold readResource. rewrite bind_pure_world by reflexivity.
  repeat match goal with
         | |- context [if startsWith ?u ?p then _ else _] =>
             destruct (startsWith u p)
         end; [| | | | |left; reflexivity].
  - unfold getFlightResource. apply resource_world.
    destruct (match_scheme "flight" is_alnum uri) as [id|]; [|left; reflexivity].
    destruct (negb (truthy_string id) || (String.length id <? 2));
      [left; reflexivity|].
    right. exists (GetFlightData id). apply rendered_world.
  - unfold getAirportResource. apply resource_world.
    destruct (match_scheme "airport" is_alnum uri) as [id|]; [|left; reflexivity].
    destruct (negb (truthy_string id)
              || negb (String.length id =? 3) && negb (String.length id =? 4));
      [left; reflexivity|].
    right. exists (GetAirportData id). apply rendered_world.
  - unfold getAirlineResource. apply resource_world.
    destruct (match_scheme "airline" is_alnum uri) as [id|]; [|left; reflexivity].
    destruct (negb (truthy_string id)
              || negb (String.length id =? 2) && negb (String.length id =? 3));
      [left; reflexivity|].
    right. exists (GetAirlineData id). apply rendered_world.
  - unfold getAircraftResource. apply resource_world.
    destruct (match_scheme "aircraft" is_alnum_or_dash uri) as [id|];
      [|left; reflexivity].
    destruct (negb (truthy_string id) || (String.length id <? 2));
      [left; reflexivity|].
    right. exists (GetAircraftData id). apply rendered_world.
  - unfold getZoneResource. apply resource_world.
    destruct (match_zone uri) as [[[[m1 m2] m3] m4]|]; [|left; reflexivity].
    cbv [bind lift throw].
    destruct (decodeURIComponent m1) as [d1|e1]; [|left; reflexivity].
    destruct (decodeURIComponent m2) as [d2|e2]; [|left; reflexivity].
    destruct (decodeURIComponent m3) as [d3|e3]; [|left; reflexivity].
    destruct (decodeURIComponent m4) as [d4|e4]; [|left; reflexivity].
    repeat match goal with
           | |- context [if ?c then _ else _] => destruct c; [left; reflexivity|]
           end.
    right.
    exists (GetFlightsInZone {| north := parseFloat d1; south := parseFloat d2;
                                west := parseFloat d3; east := parseFloat d4 |}).
    cbn [run].
    destruct (getFlightsInZone _ w) as [[a|e] w1]; reflexivity.
Qed.

Lemma run_trace op w : exists t, trace (run op w).2 = trace w ++ t.
Proof.
  rewrite run_world, makeRequest_run; simpl. eexists; reflexivity.
Qed.

(** X15. The server builds its client once.  While it has none and the
    environment variable is absent or empty, [getApiClient] throws
    [InvalidRequest] and leaves the server as it is; the missing-key error
    of the constructor can never come out of it.  Once it has returned a
    client the server holds that client, and every later call returns the
    same one whatever the environment variable has become. *)
Theorem getApiClient_builds_once (key : option string) (s : ServerState) :
  (server_apiClient s = None -> truthy (of_opt JStr key) = false ->
   getApiClient key s =
   (Throw (McpError InvalidRequest
             "FLIGHTRADAR24_API_KEY environment variable is required"), s))
  /\ (forall code,
        (getApiClient key s).1 <> Throw (McpError code ERROR_MESSAGES.MISSING_API_KEY))
  /\ (forall client s',
        getApiClient key s = (Return client, s') ->
        server_apiClient s' = Some client
        /\ server_trace s' = server_trace s
        /\ forall key', getApiClient key' s' = (Return client, s')).
Proof.
  unfold getApiClient. split; [|split].
  - intros -> ->. reflexivity.
  - intros code. destruct (server_apiClient s) as [client|]; [discriminate|].
    destruct key as [k|]; simpl; [|discriminate].
    unfold new_Flightradar24ApiClient; simpl.
    destruct (truthy_string k); simpl; discriminate.
  - intros client s'. destruct (server_apiClient s) as [held|] eqn:Hheld.
    + intros [= <- <-]. rewrite Hheld. repeat split.
    + destruct key as [k|]; simpl; [|discriminate].
      unfold new_Flightradar24ApiClient; simpl.
      destruct (truthy_string k); simpl; [|discriminate].
      intros [= <- <-]. simpl. repeat split.
Qed.

Lemma getApiClient_trace key s client s1 :
  getApiClient key s = (Return client, s1) -> server_trace s1 = server_trace s.
Proof.
  unfold getApiClient.
  destruct (server_apiClient s); [now intros [= _ <-]|].
  destruct (negb (truthy (of_opt JStr key))); [discriminate|].
  destruct (new_Flightradar24ApiClient key); [|discriminate].
  now intros [= _ <-].
Qed.

(** X16. A resource read leaves the client of the server alone and never
    un-sends anything: when the server holds a client, it holds the very
    same client after the read, whatever the address and whatever the
    upstream answers, and the log after the read extends the log before
    it.  Without a client and without a key the read fails before any
    handler runs, and sends nothing. *)
Theorem handleReadResource_keeps_client (key : option string) (uri : string)
    (s : ServerState) :
  (forall client,
      server_apiClient s = Some client ->
      server_apiClient (handleReadResource key uri s).2 = Some client)
  /\ (exists t,
        server_trace (handleReadResource key uri s).2 = server_trace s ++ t)
  /\ (server_apiClient s = None -> truthy (of_opt JStr key) = false ->
      handleReadResource key uri s =
      (Throw (McpError InvalidRequest
                "FLIGHTRADAR24_API_KEY environment variable is required"), s)).
Proof.
  assert (Hget : forall client s1,
             getApiClient key s = (Return client, s1) ->
             server_trace s1 = server_trace s).
  { intros client s1. apply (getApiClient_trace key s). }
  split; [|split].
  - intros client Hheld. unfold handleReadResource, getApiClient. rewrite Hheld.
    destruct (readResource_world uri
                {| apiClient := client; trace := server_trace s |}) as [Hw|[op Hw]];
      destruct (readResource uri {| apiClient := client; trace := server_trace s |})
        as [result w']; simpl in *; subst w'; [reflexivity|].
    now rewrite run_apiClient.
  - unfold handleReadResource.
    destruct (getApiClient key s) as [[client|e] s1] eqn:Hcall.
    + rewrite <- (Hget client s1 eq_refl).
      destruct (readResource_world uri
                  {| apiClient := client; trace := server_trace s1 |}) as [Hw|[op Hw]];
        destruct (readResource uri {| apiClient := client; trace := server_trace s1 |})
          as [result w']; simpl in *; subst w'.
      * exists []. now rewrite app_nil_r.
      * apply (run_trace op {| apiClient := client; trace := server_trace s1 |}).
    + exists []. rewrite app_nil_r. simpl.
      unfold getApiClient in Hcall.
      destruct (server_apiClient s); [discriminate|].
      destruct (negb (truthy (of_opt JStr key))); [now injection Hcall as _ <-|].
      destruct (new_Flightradar24ApiClient key); [discriminate|].
      now injection Hcall as _ <-.
  - intros Hnone Hkey. unfold handleReadResource, getApiClient.
    rewrite Hnone, Hkey. reflexivity.
Qed.

End Client.

(** ** The properties at work *)

Example sample_client_constructed :
  new_Flightradar24ApiClient (Some "secret") = Return sample_client.
Proof. reflexivity. Qed.

(** [getAirportData("LHR")] issues [GET /airports?iata=LHR] and returns the
    nested airport object as it came. *)
Example getAirportData_LHR :
  getAirportData (scripted [Resolved heathrow_body]) sample_Number_toString
    sample_JSON_stringify "LHR" sample_world
  = (Return (JObj {[ "name" := JStr "London Heathrow"; "iata" := JStr "LHR" ]}),
     log (Get {| req_endpoint := "/airports";
                 req_params := {[ "iata" := JStr "LHR" ]} |}) sample_world).
Proof. reflexivity. Qed.

(** A search that finds a flight after one rate-limited attempt. *)
Example searchFlights_after_one_429 :
  searchFlights (scripted [too_many_requests; Resolved delayed_payload])
    sample_Number_toString sample_JSON_stringify ba123 sample_world
  = (Return (JArr [JStr "BA123"]),
     {| apiClient := sample_client;
        trace := [Get {| req_endpoint := "/flights";
                         req_params := {[ "flight_iata" := JStr "BA123";
                                          "limit" := JNum 10 ]} |};
                  Sleep 1000;
                  Get {| req_endpoint := "/flights";
                         req_params := {[ "flight_iata" := JStr "BA123";
                                          "limit" := JNum 10 ]} |}] |}).
Proof. reflexivity. Qed.

(** A dropped connection and a 500 are not retried. *)
Example network_error_not_retried :
  makeRequest (scripted []) sample_Number_toString sample_JSON_stringify
    "/zones" ∅ 0 sample_world
  = (Throw (McpError InternalError
              "Network error while connecting to Flightradar24 API"),
     log (Get {| req_endpoint := "/zones"; req_params := ∅ |}) sample_world).
Proof. reflexivity. Qed.

Example server_error_not_retried :
  makeRequest (scripted [AxiosErrorResponse 500 (JStr "down")])
    sample_Number_toString sample_JSON_stringify "/zones" ∅ 0 sample_world
  = (Throw (McpError InternalError
              ("Flightradar24 API error: 500 - " +:+ quote +:+ "down" +:+ quote)),
     log (Get {| req_endpoint := "/zones"; req_params := ∅ |}) sample_world).
Proof. reflexivity. Qed.

(** Four 429 answers in a row on a fresh client: four GETs, three sleeps,
    and the generic API error for status 429. *)
Lemma rate_limit_exhausted_witness :
  makeRequest always_429 sample_Number_toString sample_JSON_stringify
    "/flights" ∅ 0 sample_world =
    (Throw (McpError InternalError "Flightradar24 API error: 429 - null"),
     {| apiClient := sample_client;
        trace := [Get {| req_endpoint := "/flights"; req_params := ∅ |}; Sleep 1000;
                  Get {| req_endpoint := "/flights"; req_params := ∅ |}; Sleep 2000;
                  Get {| req_endpoint := "/flights"; req_params := ∅ |}; Sleep 4000;
                  Get {| req_endpoint := "/flights"; req_params := ∅ |}] |})
  /\ issued sample_world
       (makeRequest always_429 sample_Number_toString sample_JSON_stringify
          "/flights" ∅ 0 sample_world).2 =
     [{| req_endpoint := "/flights"; req_params := ∅ |};
      {| req_endpoint := "/flights"; req_params := ∅ |};
      {| req_endpoint := "/flights"; req_params := ∅ |};
      {| req_endpoint := "/flights"; req_params := ∅ |}]
  /\ forall code,
       (makeRequest always_429 sample_Number_toString sample_JSON_stringify
          "/flights" ∅ 0 sample_world).1
       <> Throw (McpError code ERROR_MESSAGES.RATE_LIMIT_EXCEEDED).
Proof.
  exact (rate_limit_exhausted_surfaces_api_error
           always_429 sample_Number_toString sample_JSON_stringify
           "/flights" ∅ sample_world JNull eq_refl
           (fun i _ => ex_intro _ JNull eq_refl) eq_refl).
Defined.

(** The four lookups against bodies that stop short of the record. *)
Lemma detail_missing_envelope_witness :
  let up := scripted [Resolved no_terminal] in
  let up0 := scripted [Resolved (JObj ∅)] in
  getFlightData up0 sample_Number_toString sample_JSON_stringify "BA123" sample_world
    = (Throw (McpError InvalidRequest "No flight data found for flight ID: BA123"),
       log (Get {| req_endpoint := "/flight/info/BA123"; req_params := ∅ |}) sample_world)
  /\ getAirportData up sample_Number_toString sample_JSON_stringify "LHR" sample_world
    = (Throw (McpError InvalidRequest "No airport data found for airport code: LHR"),
       log (Get {| req_endpoint := "/airports";
                   req_params := {[ "iata" := JStr "LHR" ]} |}) sample_world)
  /\ getAirlineData up sample_Number_toString sample_JSON_stringify "BAW" sample_world
    = (Throw (McpError InvalidRequest "No airline data found for airline code: BAW"),
       log (Get {| req_endpoint := "/airlines";
                   req_params := {[ "icao" := JStr "BAW" ]} |}) sample_world)
  /\ getAircraftData up sample_Number_toString sample_JSON_stringify "G-EUPT" sample_world
    = (Throw (McpError InvalidRequest "No aircraft data found for registration: G-EUPT"),
       log (Get {| req_endpoint := "/aircraft/G-EUPT"; req_params := ∅ |}) sample_world).
Proof.
  pose proof (detail_missing_envelope_not_found
                (scripted [Resolved (JObj ∅)]) sample_Number_toString
                sample_JSON_stringify sample_world (JObj ∅)) as (Hflight & _).
  pose proof (detail_missing_envelope_not_found
                (scripted [Resolved no_terminal]) sample_Number_toString
                sample_JSON_stringify sample_world no_terminal)
    as (_ & Hairport & Hairline & Haircraft).
  split; [|split; [|split]].
  - exact (Hflight "BA123" _ eq_refl eq_refl).
  - exact (Hairport "LHR" _ eq_refl eq_refl).
  - exact (Hairline "BAW" _ eq_refl eq_refl).
  - exact (Haircraft "G-EUPT" _ eq_refl eq_refl).
Defined.

(** The three queries against a body without the array.  The inverted
    bounds go out as they are. *)
Lemma search_missing_envelope_witness :
  let up := scripted [Resolved no_terminal] in
  (searchFlights up sample_Number_toString sample_JSON_stringify ba123 sample_world).1
    = Return (JArr [])
  /\ (searchAirports up sample_Number_toString sample_JSON_stringify
        (airports_named "Heathrow" None) sample_world).1
    = Return (JArr [])
  /\ getFlightsInZone up sample_Number_toString sample_JSON_stringify
       inverted_bounds sample_world
    = (Return (JArr []),
       log (Get {| req_endpoint := "/zones";
                   req_params := {[ "bounds" := JStr "10,20,0,0" ]} |}) sample_world).
Proof.
  pose proof (search_missing_envelope_empty
                (scripted [Resolved no_terminal]) sample_Number_toString
                sample_JSON_stringify sample_world no_terminal)
    as (Hflights & Hairports & Hzone).
  split; [|split].
  - exact (f_equal fst (Hflights ba123 _ eq_refl eq_refl)).
  - exact (f_equal fst (Hairports (airports_named "Heathrow" None) _ eq_refl eq_refl)).
  - exact (Hzone inverted_bounds _ eq_refl eq_refl).
Defined.

(** Three 429 answers, then the body: sleeps of 1, 2 and 4 seconds. *)
Lemma three_429_then_200_witness :
  let up := scripted [too_many_requests; too_many_requests; too_many_requests;
                      Resolved delayed_payload] in
  let r := {| req_endpoint := "/flights"; req_params := ∅ |} in
  makeRequest up sample_Number_toString sample_JSON_stringify "/flights" ∅ 0 sample_world
    = (Return delayed_payload,
       {| apiClient := sample_client;
          trace := [Get r; Sleep 1000; Get r; Sleep 2000; Get r; Sleep 4000; Get r] |})
  /\ slept sample_world
       (makeRequest up sample_Number_toString sample_JSON_stringify
          "/flights" ∅ 0 sample_world).2 = [1000; 2000; 4000]%Z.
Proof.
  pose proof (three_429_then_200
                (scripted [too_many_requests; too_many_requests; too_many_requests;
                           Resolved delayed_payload])
                sample_Number_toString sample_JSON_stringify
                "/flights" ∅ sample_world delayed_payload
                ltac:(simpl; lia)
                ltac:(intros i Hi; destruct i as [|[|[|i]]];
                      [eexists; reflexivity .. | exfalso; lia])
                eq_refl) as (Hrun & _ & Hslept & _).
  split; [exact Hrun|exact (Hslept eq_refl)].
Defined.

(** A four-letter airport code goes out as [icao]. *)
Lemma code_length_selects_parameter_witness :
  let up := scripted [Resolved no_terminal] in
  req_params {| req_endpoint := "/airports";
                req_params := {[ "icao" := JStr "EGLL" ]} |}
  = {[ "icao" := JStr "EGLL" ]}
  /\ issued sample_world
       (getAirportData up sample_Number_toString sample_JSON_stringify
          "EGLL" sample_world).2
     = [{| req_endpoint := "/airports"; req_params := {[ "icao" := JStr "EGLL" ]} |}].
Proof.
  pose proof (code_length_selects_parameter
                (scripted [Resolved no_terminal]) sample_Number_toString
                sample_JSON_stringify "EGLL" sample_world) as [[_ Hall] _].
  assert (Hissued :
            issued sample_world
              (getAirportData (scripted [Resolved no_terminal]) sample_Number_toString
                 sample_JSON_stringify "EGLL" sample_world).2
            = [{| req_endpoint := "/airports";
                  req_params := {[ "icao" := JStr "EGLL" ]} |}])
    by reflexivity.
  split; [|exact Hissued].
  apply Hall. rewrite Hissued. constructor.
Defined.

(** A 401 on the first attempt: one GET, no sleep. *)
Lemma unauthorized_fails_at_once_witness :
  let up := scripted [AxiosErrorResponse 401 JNull] in
  let r := {| req_endpoint := "/airlines"; req_params := {[ "iata" := JStr "BA" ]} |} in
  makeRequest up sample_Number_toString sample_JSON_stringify
    "/airlines" {[ "iata" := JStr "BA" ]} 0 sample_world
    = (Throw (McpError InvalidRequest "Invalid Flightradar24 API key"),
       log (Get r) sample_world)
  /\ issued sample_world
       (makeRequest up sample_Number_toString sample_JSON_stringify
          "/airlines" {[ "iata" := JStr "BA" ]} 0 sample_world).2 = [r]
  /\ slept sample_world
       (makeRequest up sample_Number_toString sample_JSON_stringify
          "/airlines" {[ "iata" := JStr "BA" ]} 0 sample_world).2 = [].
Proof.
  exact (unauthorized_fails_at_once
           (scripted [AxiosErrorResponse 401 JNull]) sample_Number_toString
           sample_JSON_stringify "/airlines" {[ "iata" := JStr "BA" ]} 0
           sample_world JNull eq_refl).
Defined.

(** C7, as stated, fails when the upstream rate-limits the zone query
    once: the same GET goes out twice. *)
Lemma zone_query_reissued_on_429 :
  ~ exactly_one_zone_request
      (scripted [too_many_requests; Resolved no_terminal])
      sample_Number_toString sample_JSON_stringify
      inverted_bounds sample_world.
Proof.
  unfold exactly_one_zone_request.
  assert (Hissued :
            issued sample_world
              (getFlightsInZone (scripted [too_many_requests; Resolved no_terminal])
                 sample_Number_toString sample_JSON_stringify
                 inverted_bounds sample_world).2
            = [zone_request sample_Number_toString inverted_bounds;
               zone_request sample_Number_toString inverted_bounds])
    by reflexivity.
  rewrite Hissued. discriminate.
Qed.

(** One 429, then a body: the zone query is two GETs, the same one
    twice; the tool turns the inverted bounds down before any GET. *)
Lemma zone_bounds_forwarded_witness :
  let up := scripted [too_many_requests; Resolved no_terminal] in
  let r := {| req_endpoint := "/zones";
              req_params := {[ "bounds" := JStr "10,20,0,0" ]} |} in
  issued sample_world
    (getFlightsInZone up sample_Number_toString
       sample_JSON_stringify inverted_bounds sample_world).2 = [r; r]
  /\ exists message,
       getFlightsInZoneTool up sample_Number_toString sample_JSON_stringify
         sample_render inverted_bounds sample_world
       = (Throw (McpError InvalidParams message), sample_world).
Proof.
  pose proof (zone_bounds_forwarded_unvalidated
                (scripted [too_many_requests; Resolved no_terminal])
                sample_Number_toString sample_JSON_stringify sample_render
                inverted_bounds sample_world)
    as ((k & Hk & Hissued & H429 & Hstop) & _ & _ & Hrejected & _).
  split; [|exact (Hrejected eq_refl)].
  cbv zeta. rewrite Hissued.
  destruct k as [|[|[|[|k]]]].
  - specialize (Hstop ltac:(simpl; lia)). discriminate Hstop.
  - reflexivity.
  - specialize (H429 1 ltac:(lia)). discriminate H429.
  - specialize (H429 1 ltac:(lia)). discriminate H429.
  - simpl in Hk. lia.
Defined.

(** The client built from the key [secret] survives a rate-limited lookup
    unchanged. *)
Lemma construction_witness :
  new_Flightradar24ApiClient (Some "secret") = Return sample_client
  /\ apiClient
       (run (scripted [too_many_requests; Resolved no_terminal])
          sample_Number_toString sample_JSON_stringify
          (GetAirportData "LHR") sample_world).2 = sample_client.
Proof.
  pose proof (construction_and_immutability
                (scripted [too_many_requests; Resolved no_terminal])
                sample_Number_toString sample_JSON_stringify)
    as (_ & _ & Hnew & Hrun & _).
  split.
  - exact (Hnew "secret" ltac:(discriminate)).
  - exact (Hrun (GetAirportData "LHR") sample_world).
Defined.


(** [search_flights] and [search_airports] with [limit: 0], and
    [search_flights] without a limit, send [limit=10]. *)
Lemma tool_limit_witness :
  let up := scripted [Resolved no_terminal] in
  let flights limit :=
    {| req_endpoint := "/flights";
       req_params := {[ "flight_iata" := JStr "BA123"; "limit" := JNum limit ]} |} in
  let airports limit :=
    {| req_endpoint := "/airports";
       req_params := {[ "name" := JStr "Heathrow"; "limit" := JNum limit ]} |} in
  let no_limit :=
    {| FlightSearchParams.airline_iata := None;
       FlightSearchParams.airline_icao := None;
       FlightSearchParams.flight_number := None;
       FlightSearchParams.flight_iata := Some "BA123";
       FlightSearchParams.flight_icao := None;
       FlightSearchParams.registration := None;
       FlightSearchParams.bounds := None;
       FlightSearchParams.limit := None |} in
  (issued sample_world
     (searchFlightsTool up sample_Number_toString sample_JSON_stringify sample_render
        (FlightSearchParams.with_limit ba123 0) sample_world).2 <> []
   /\ forall r,
        r ∈ issued sample_world
              (searchFlightsTool up sample_Number_toString sample_JSON_stringify
                 sample_render (FlightSearchParams.with_limit ba123 0) sample_world).2 ->
        r = flights 10%float)
  /\ (issued sample_world
        (searchFlightsTool up sample_Number_toString sample_JSON_stringify sample_render
           no_limit sample_world).2 <> []
      /\ forall r,
           r ∈ issued sample_world
                 (searchFlightsTool up sample_Number_toString sample_JSON_stringify
                    sample_render no_limit sample_world).2 ->
           r = flights 10%float)
  /\ (issued sample_world
        (searchAirportsTool up sample_Number_toString sample_JSON_stringify sample_render
           (airports_named "Heathrow" (Some 0%float)) sample_world).2 <> []
      /\ forall r,
           r ∈ issued sample_world
                 (searchAirportsTool up sample_Number_toString sample_JSON_stringify
                    sample_render (airports_named "Heathrow" (Some 0%float))
                    sample_world).2 ->
           r = airports 10%float).
Proof.
  pose proof (tool_limit_defaults_to_10
                (scripted [Resolved no_terminal]) sample_Number_toString
                sample_JSON_stringify sample_render sample_render)
    as (_ & _ & _ & _ & _ & Hflights & Hairports & _).
  split; [|split].
  - exact (proj2 (proj2 (Hflights (FlightSearchParams.with_limit ba123 0)
                           sample_world eq_refl))).
  - exact (proj2 (proj2 (Hflights
                           {| FlightSearchParams.airline_iata := None;
                              FlightSearchParams.airline_icao := None;
                              FlightSearchParams.flight_number := None;
                              FlightSearchParams.flight_iata := Some "BA123";
                              FlightSearchParams.flight_icao := None;
                              FlightSearchParams.registration := None;
                              FlightSearchParams.bounds := None;
                              FlightSearchParams.limit := None |}
                           sample_world eq_refl))).
  - exact (proj2 (proj2 (Hairports (airports_named "Heathrow" (Some 0%float))
                           sample_world eq_refl))).
Defined.

(** ** The further properties at work *)

(** A handler's rendering that hands the records back as they are. *)
Definition sample_format (records : value) : Result value := Return records.

(** [decodeURIComponent] on text without escapes. *)
Definition sample_decodeURIComponent (text : string) : Result string := Return text.

Definition digit_value (c : Ascii.ascii) : option float :=
  match Ascii.nat_of_ascii c - 48 with
  | 0 => if Ascii.nat_of_ascii c =? 48 then Some 0%float else None
  | 1 => Some 1%float | 2 => Some 2%float | 3 => Some 3%float
  | 4 => Some 4%float | 5 => Some 5%float | 6 => Some 6%float
  | 7 => Some 7%float | 8 => Some 8%float | 9 => Some 9%float
  | _ => None
  end.

Fixpoint parse_digits (acc : float) (text : string) : float :=
  match text with
  | EmptyString => acc
  | String c rest =>
      match digit_value c with
      | Some d => parse_digits (acc * 10 + d)%float rest
      | None => PrimFloat.nan
      end
  end.

(** [parseFloat] on plain decimal integers, with or without a sign; any
    other text is read as [NaN] here. *)
Definition sample_parseFloat (text : string) : float :=
  match text with
  | EmptyString => PrimFloat.nan
  | String c rest =>
      if Ascii.nat_of_ascii c =? 45 then
        match rest with
        | EmptyString => PrimFloat.nan
        | _ => (- parse_digits 0 rest)%float
        end
      else parse_digits 0 text
  end.

Definition london_zone : Bounds :=
  {| north := 52; south := 51; west := -1; east := 1 |}.

Example sample_parseFloat_reads_integers :
  sample_parseFloat "52" = 52%float /\ sample_parseFloat "-1" = (-1)%float
  /\ PrimFloat.is_nan (sample_parseFloat "north") = true.
Proof. repeat split. Qed.

(** A client that is rate-limited throughout: four GETs, 7000 ms asleep. *)
Lemma backoff_is_bounded_witness :
  length (issued sample_world
            (makeRequest always_429 sample_Number_toString sample_JSON_stringify
               "/flights" ∅ 0 sample_world).2) <= 4
  /\ (total (slept sample_world
               (makeRequest always_429 sample_Number_toString sample_JSON_stringify
                  "/flights" ∅ 0 sample_world).2) <= 7000)%Z.
Proof.
  pose proof (backoff_is_bounded always_429 sample_Number_toString
                sample_JSON_stringify "/flights" ∅ 0 sample_world)
    as (_ & _ & _ & Hpolicy).
  exact (Hpolicy eq_refl eq_refl eq_refl).
Defined.

(** A dropped connection: one GET and the network error. *)
Lemma transport_error_taxonomy_witness :
  (makeRequest (scripted []) sample_Number_toString sample_JSON_stringify
     "/zones" ∅ 0 sample_world).1
  = Throw (McpError InternalError ERROR_MESSAGES.NETWORK_ERROR)
  /\ exists k,
       issued sample_world
         (makeRequest (scripted []) sample_Number_toString sample_JSON_stringify
            "/zones" ∅ 0 sample_world).2
       = replicate (S k) {| req_endpoint := "/zones"; req_params := ∅ |}.
Proof.
  split; [reflexivity|].
  destruct (transport_error_taxonomy (scripted []) sample_Number_toString
              sample_JSON_stringify "/zones" ∅ 0 sample_world
              (McpError InternalError ERROR_MESSAGES.NETWORK_ERROR) eq_refl)
    as [k [Hissued _]].
  exists k. exact Hissued.
Defined.

(** A 401 on a search comes out as the invalid-key error, not as an empty
    result. *)
Lemma transport_failure_propagates_witness :
  run (scripted [AxiosErrorResponse 401 JNull]) sample_Number_toString
    sample_JSON_stringify (SearchFlights ba123) sample_world
  = (Throw (McpError InvalidRequest "Invalid Flightradar24 API key"),
     log (Get {| req_endpoint := "/flights";
                 req_params := FlightSearchParams.object ba123 |}) sample_world).
Proof.
  exact (transport_failure_propagates
           (scripted [AxiosErrorResponse 401 JNull]) sample_Number_toString
           sample_JSON_stringify (SearchFlights ba123) sample_world _ _ eq_refl).
Defined.

(** The airport of the body comes back as it is. *)
Lemma present_envelope_is_returned_witness :
  run (scripted [Resolved heathrow_body]) sample_Number_toString
    sample_JSON_stringify (GetAirportData "LHR") sample_world
  = (Return (JObj {[ "name" := JStr "London Heathrow"; "iata" := JStr "LHR" ]}),
     log (Get {| req_endpoint := "/airports";
                 req_params := {[ "iata" := JStr "LHR" ]} |}) sample_world).
Proof.
  exact (present_envelope_is_returned
           (scripted [Resolved heathrow_body]) sample_Number_toString
           sample_JSON_stringify (GetAirportData "LHR") sample_world
           heathrow_body _ eq_refl eq_refl).
Defined.

(** The zone address [zone://52/51/-1/1] is read, checked and sent. *)
Lemma zone_resource_witness :
  exists m1 m2 m3 m4 d1 d2 d3 d4,
    match_zone "zone://52/51/-1/1" = Some (m1, m2, m3, m4)
    /\ sample_decodeURIComponent m1 = Return d1
    /\ sample_decodeURIComponent m2 = Return d2
    /\ sample_decodeURIComponent m3 = Return d3
    /\ sample_decodeURIComponent m4 = Return d4
    /\ {| req_endpoint := "/zones";
          req_params := {[ "bounds" := JStr "52,51,-1,1" ]} |}
       = zone_request sample_Number_toString
           {| north := sample_parseFloat d1; south := sample_parseFloat d2;
              west := sample_parseFloat d3; east := sample_parseFloat d4 |}
    /\ PrimFloat.is_nan (sample_parseFloat d1) = false
    /\ PrimFloat.is_nan (sample_parseFloat d2) = false
    /\ PrimFloat.is_nan (sample_parseFloat d3) = false
    /\ PrimFloat.is_nan (sample_parseFloat d4) = false
    /\ rejected_by_tool
         {| north := sample_parseFloat d1; south := sample_parseFloat d2;
            west := sample_parseFloat d3; east := sample_parseFloat d4 |} = false.
Proof.
  apply (zone_resource_sends_checked_bounds
           (scripted [Resolved no_terminal]) sample_Number_toString
           sample_JSON_stringify sample_render sample_parseFloat
           sample_decodeURIComponent "zone://52/51/-1/1" sample_world).
  assert (Hissued :
            issued sample_world
              (getZoneResource (scripted [Resolved no_terminal]) sample_Number_toString
                 sample_JSON_stringify sample_render sample_parseFloat
                 sample_decodeURIComponent "zone://52/51/-1/1" sample_world).2
            = [{| req_endpoint := "/zones";
                  req_params := {[ "bounds" := JStr "52,51,-1,1" ]} |}])
    by reflexivity.
  rewrite Hissued. constructor.
Defined.

(** A five-letter airport code is turned down; [EGLL] goes out as [icao]. *)
Lemma lookup_tools_witness :
  let up := scripted [Resolved heathrow_body] in
  let icao := {| req_endpoint := "/airports";
                 req_params := {[ "icao" := JStr "EGLL" ]} |} in
  let iata := {| req_endpoint := "/airports";
                 req_params := {[ "iata" := JStr "EGLL" ]} |} in
  getAirportDataTool up sample_Number_toString
    sample_JSON_stringify sample_format "EGLLX" sample_world
  = (Throw (McpError InvalidParams
       "Invalid airport code. Must be a 3-letter IATA code or 4-letter ICAO code."),
     sample_world)
  /\ (icao = iata /\ String.length "EGLL" = 3
      \/ icao = icao /\ String.length "EGLL" = 4)
  /\ (getAirportDataTool up sample_Number_toString sample_JSON_stringify
        sample_format "EGLL" sample_world).2
     = (getAirportData up sample_Number_toString sample_JSON_stringify
          "EGLL" sample_world).2
  /\ issued sample_world
       (getAirportDataTool up sample_Number_toString sample_JSON_stringify
          sample_format "EGLL" sample_world).2 <> [].
Proof.
  pose proof (lookup_tools_check_their_argument
                (scripted [Resolved heathrow_body]) sample_Number_toString
                sample_JSON_stringify sample_format sample_format sample_format
                "EGLLX" sample_world) as (Hreject & _).
  pose proof (lookup_tools_check_their_argument
                (scripted [Resolved heathrow_body]) sample_Number_toString
                sample_JSON_stringify sample_format sample_format sample_format
                "EGLL" sample_world)
    as (_ & Hsent & _ & _ & _ & _ & Hlookup & _).
  split; [|split].
  - exact (Hreject ltac:(discriminate) ltac:(discriminate)).
  - apply Hsent.
    assert (Hissued :
              issued sample_world
                (getAirportDataTool (scripted [Resolved heathrow_body])
                   sample_Number_toString sample_JSON_stringify sample_format
                   "EGLL" sample_world).2
              = [{| req_endpoint := "/airports";
                    req_params := {[ "icao" := JStr "EGLL" ]} |}])
      by reflexivity.
    rewrite Hissued. constructor.
  - exact (proj2 (Hlookup (or_intror eq_refl))).
Defined.

(** With both codes given the flight is looked up under the ICAO one. *)
Lemma flight_tool_identifier_witness :
  let up := scripted [Resolved (JObj ∅)] in
  let both := {| FlightDataArgs.flight_iata := Some "BA123";
                 FlightDataArgs.flight_icao := Some "BAW123" |} in
  let iata_only := {| FlightDataArgs.flight_iata := Some "BA123";
                      FlightDataArgs.flight_icao := Some "" |} in
  (exists flightId,
      flightId <> ""
      /\ {| req_endpoint := "/flight/info/BAW123"; req_params := ∅ |}
         = {| req_endpoint := "/flight/info/" +:+ flightId; req_params := ∅ |}
      /\ (truthy (of_opt JStr (Some "BAW123")) = true -> Some "BAW123" = Some flightId)
      /\ (truthy (of_opt JStr (Some "BAW123")) = false -> Some "BA123" = Some flightId))
  /\ ((getFlightDataTool up sample_Number_toString sample_JSON_stringify
         sample_format both sample_world).2
      = (getFlightData up sample_Number_toString sample_JSON_stringify
           "BAW123" sample_world).2
      /\ issued sample_world
           (getFlightDataTool up sample_Number_toString sample_JSON_stringify
              sample_format both sample_world).2 <> [])
  /\ ((getFlightDataTool up sample_Number_toString sample_JSON_stringify
         sample_format iata_only sample_world).2
      = (getFlightData up sample_Number_toString sample_JSON_stringify
           "BA123" sample_world).2
      /\ issued sample_world
           (getFlightDataTool up sample_Number_toString sample_JSON_stringify
              sample_format iata_only sample_world).2 <> []).
Proof.
  pose proof (flight_tool_identifier
                (scripted [Resolved (JObj ∅)]) sample_Number_toString
                sample_JSON_stringify sample_format
                {| FlightDataArgs.flight_iata := Some "BA123";
                   FlightDataArgs.flight_icao := Some "BAW123" |} sample_world)
    as (_ & Hsent & _ & Hicao & _).
  pose proof (flight_tool_identifier
                (scripted [Resolved (JObj ∅)]) sample_Number_toString
                sample_JSON_stringify sample_format
                {| FlightDataArgs.flight_iata := Some "BA123";
                   FlightDataArgs.flight_icao := Some "" |} sample_world)
    as (_ & _ & _ & _ & Hiata & _).
  split; [|split].
  - apply Hsent.
    assert (Hissued :
              issued sample_world
                (getFlightDataTool (scripted [Resolved (JObj ∅)]) sample_Number_toString
                   sample_JSON_stringify sample_format
                   {| FlightDataArgs.flight_iata := Some "BA123";
                      FlightDataArgs.flight_icao := Some "BAW123" |} sample_world).2
              = [{| req_endpoint := "/flight/info/BAW123"; req_params := ∅ |}])
      by reflexivity.
    rewrite Hissued. constructor.
  - exact (proj2 (Hicao "BAW123" eq_refl ltac:(discriminate))).
  - exact (proj2 (Hiata "BA123" eq_refl eq_refl ltac:(discriminate))).
Defined.

(** Bounds far outside the globe, but in order, pass the search tool. *)
Definition off_the_globe : Bounds :=
  {| north := 1000; south := 500; west := 200; east := 300 |}.

Definition search_off_the_globe : FlightSearchParams.t :=
  {| FlightSearchParams.airline_iata := None;
     FlightSearchParams.airline_icao := None;
     FlightSearchParams.flight_number := None;
     FlightSearchParams.flight_iata := None;
     FlightSearchParams.flight_icao := None;
     FlightSearchParams.registration := None;
     FlightSearchParams.bounds := Some off_the_globe;
     FlightSearchParams.limit := None |}.

Lemma search_tools_witness :
  issued sample_world
    (searchFlightsTool (scripted [Resolved no_terminal]) sample_Number_toString
       sample_JSON_stringify sample_render search_off_the_globe sample_world).2 <> []
  /\ forall r,
       r ∈ issued sample_world
             (searchFlightsTool (scripted [Resolved no_terminal])
                sample_Number_toString sample_JSON_stringify sample_render
                search_off_the_globe sample_world).2 ->
       req_endpoint r = "/flights"
       /\ req_params r !! "bounds" = Some (Bounds_object off_the_globe).
Proof.
  pose proof (search_tools_need_a_criterion
                (scripted [Resolved no_terminal]) sample_Number_toString
                sample_JSON_stringify sample_render sample_render)
    as (_ & Hbounds & _).
  destruct (Hbounds search_off_the_globe off_the_globe sample_world eq_refl)
    as (_ & _ & Hsent).
  exact (Hsent eq_refl eq_refl).
Defined.

(** [flight://BA123] is read back as [BA123] and sent to [/flight/info/BA123]. *)
Lemma resource_requests_witness :
  match_scheme "flight" is_alnum "flight://BA123" = Some "BA123"
  /\ exists id,
       "flight://BA123" = "flight://" +:+ id /\ all_chars is_alnum id = true
       /\ 2 <= String.length id
       /\ {| req_endpoint := "/flight/info/BA123"; req_params := ∅ |}
          = {| req_endpoint := "/flight/info/" +:+ id; req_params := ∅ |}.
Proof.
  split; [reflexivity|].
  pose proof (resource_requests_are_checked
                (scripted [Resolved (JObj ∅)]) sample_Number_toString
                sample_JSON_stringify sample_format sample_format sample_format
                sample_format "flight://BA123" sample_world
                {| req_endpoint := "/flight/info/BA123"; req_params := ∅ |})
    as (Hflight & _).
  apply Hflight.
  assert (Hissued :
            issued sample_world
              (getFlightResource (scripted [Resolved (JObj ∅)]) sample_Number_toString
                 sample_JSON_stringify sample_format "flight://BA123" sample_world).2
            = [{| req_endpoint := "/flight/info/BA123"; req_params := ∅ |}])
    by reflexivity.
  rewrite Hissued. constructor.
Defined.

(** A key that appears, is used, and is then withdrawn: the client built
    from it stays. *)
Lemma getApiClient_witness :
  getApiClient (Some "secret")
    {| server_apiClient := None; server_trace := [] |}
  = (Return sample_client,
     {| server_apiClient := Some sample_client; server_trace := [] |})
  /\ forall key',
       getApiClient key' {| server_apiClient := Some sample_client; server_trace := [] |}
       = (Return sample_client,
          {| server_apiClient := Some sample_client; server_trace := [] |}).
Proof.
  split; [reflexivity|].
  pose proof (getApiClient_builds_once (Some "secret")
                {| server_apiClient := None; server_trace := [] |})
    as (_ & _ & Hkept).
  destruct (Hkept sample_client
              {| server_apiClient := Some sample_client; server_trace := [] |}
              eq_refl) as (_ & _ & Hlater).
  exact Hlater.
Defined.

(** A rendering that fails the way [records.map] does on a non-array. *)
Definition failing_format (records : value) : Result value :=
  Throw (OtherError "records.map is not a function").

(** The failure of the rendering reaches the caller as an [McpError]. *)
Lemma callers_throw_only_McpError_witness :
  getAirportDataTool (scripted [Resolved heathrow_body]) sample_Number_toString
    sample_JSON_stringify failing_format "LHR" sample_world
  = (Throw (McpError InternalError
              "Error retrieving airport data: records.map is not a function"),
     log (Get {| req_endpoint := "/airports";
                 req_params := {[ "iata" := JStr "LHR" ]} |}) sample_world)
  /\ is_McpError
       (McpError InternalError
          "Error retrieving airport data: records.map is not a function").
Proof.
  split; [reflexivity|].
  pose proof (callers_throw_only_McpError
                (scripted [Resolved heathrow_body]) sample_Number_toString
                sample_JSON_stringify sample_render sample_render sample_render
                sample_format failing_format sample_format sample_format
                sample_format sample_format sample_format sample_format
                sample_render sample_parseFloat sample_decodeURIComponent
                sample_world
                (McpError InternalError
                   "Error retrieving airport data: records.map is not a function"))
    as (_ & _ & Hairport & _).
  exact (Hairport "LHR" eq_refl).
Defined.

(** [airline://BA] is served by the airline handler, although it starts
    like an airport address. *)
Lemma resource_routing_witness :
  match_scheme "airline" is_alnum "airline://BA" = Some "BA"
  /\ readResource (scripted [Resolved no_terminal]) sample_Number_toString
       sample_JSON_stringify sample_format sample_format sample_format sample_format
       sample_render sample_parseFloat sample_decodeURIComponent
       "airline://BA" sample_world
     = (content <- getAirlineResource (scripted [Resolved no_terminal])
                     sample_Number_toString sample_JSON_stringify sample_format
                     "airline://BA" ;;
        ret (contents_of "airline://BA" content)) sample_world.
Proof.
  split; [reflexivity|].
  pose proof (resource_routing
                (scripted [Resolved no_terminal]) sample_Number_toString
                sample_JSON_stringify sample_format sample_format sample_format
                sample_format sample_render sample_parseFloat
                sample_decodeURIComponent "airline://BA" sample_world)
    as (_ & _ & Hairline & _).
  exact (Hairline ltac:(discriminate)).
Defined.

(** A read on a server that holds a client: the client stays, and the log
    grows by the one GET. *)
Lemma handleReadResource_witness :
  server_apiClient
    (handleReadResource (scripted [Resolved heathrow_body]) sample_Number_toString
       sample_JSON_stringify sample_format sample_format sample_format sample_format
       sample_render sample_parseFloat sample_decodeURIComponent
       None "airport://LHR"
       {| server_apiClient := Some sample_client; server_trace := [] |}).2
  = Some sample_client
  /\ server_trace
       (handleReadResource (scripted [Resolved heathrow_body]) sample_Number_toString
          sample_JSON_stringify sample_format sample_format sample_format sample_format
          sample_render sample_parseFloat sample_decodeURIComponent
          None "airport://LHR"
          {| server_apiClient := Some sample_client; server_trace := [] |}).2
     = [Get {| req_endpoint := "/airports";
               req_params := {[ "iata" := JStr "LHR" ]} |}].
Proof.
  pose proof (handleReadResource_keeps_client
                (scripted [Resolved heathrow_body]) sample_Number_toString
                sample_JSON_stringify sample_format sample_format sample_format
                sample_format sample_render sample_parseFloat
                sample_decodeURIComponent None "airport://LHR"
                {| server_apiClient := Some sample_client; server_trace := [] |})
    as (Hkept & _ & _).
  split; [exact (Hkept sample_client eq_refl)|reflexivity].
Defined.
